(** * Fitness tracker: a shallow embedding of [fitness_tracker.py]

    The development follows the methods of the class [FitnessTracker]:
    the metric calculator ([calculate_bmr], [calculate_goal_calories]),
    registration, the custom-exercise catalog, routine entry, the
    exercise-progress query and the profile updates.

    Modelling conventions.
    - Python floats and SQLite REAL/INTEGER values are exact rationals
      ([Q]); rounding, infinities and NaN are outside the model.
    - SQL NULL and Python [None] are [None] of an option type.
    - The terminal is a finite list of input events; an exhausted list
      is end-of-file.  Text printed to the terminal is not recorded.
    - The database file is the [committed] store of a [world]; an open
      connection works on the [working] copy, which [commit] publishes
      and [rollback] discards. *)

From Stdlib Require Import QArith ZArith List String Ascii Bool Lia Lqa Sorted.
Import ListNotations.

Open Scope string_scope.
Open Scope Q_scope.

(** ** Python values *)

Module Py.

(** The exceptions the modelled methods can meet. *)
Inductive exn : Type :=
| KeyboardInterrupt
| EOFError
| ValueError
| TypeError
| ZeroDivisionError
| UnboundLocalError
| IntegrityError
| OperationalError.

(** [Diverged] is not a Python outcome: it marks a loop of the model
    that used up its iteration bound. *)
Inductive outcome (A : Type) : Type :=
| Ok (a : A)
| Raise (e : exn)
| Diverged.

Arguments Ok {A} a.
Arguments Raise {A} e.
Arguments Diverged {A}.

(** [sqlite3.Error] and its subclasses. *)
Definition is_sqlite_error (e : exn) : bool :=
  match e with
  | IntegrityError | OperationalError => true
  | _ => false
  end.

(** [str.lower] on the ASCII range: it agrees with Python on every
    text of ASCII characters.  No character outside ASCII lowers to
    one of the letters of the keywords compared below; where a lowered
    line is stored, the statements are about ASCII lines. *)
Definition lower_ascii (c : ascii) : ascii :=
  let n := nat_of_ascii c in
  if (65 <=? n)%nat && (n <=? 90)%nat then ascii_of_nat (n + 32) else c.

Fixpoint lower (s : string) : string :=
  match s with
  | EmptyString => EmptyString
  | String c rest => String (lower_ascii c) (lower rest)
  end.

(** The two-argument [min(x, y)]: [y] when [y < x], else [x]. *)
Definition min (x y : Q) : Q :=
  if Qlt_le_dec y x then y else x.

(** [x != 0] on numbers. *)
Definition nonzero (x : Q) : bool := negb (Qeq_bool x 0).

(** Truthiness of a nullable number: [None] and [0] are falsy. *)
Definition truthy (v : option Q) : bool :=
  match v with
  | Some x => nonzero x
  | None => false
  end.

(** True division [x / y]. *)
Definition div (x y : Q) : outcome Q :=
  if nonzero y then Ok (x / y) else Raise ZeroDivisionError.

(** [int(x)]: truncation towards zero.  [int] of an infinity, an
    [OverflowError] in Python, is outside the model as infinities
    are. *)
Definition int (x : Q) : Z := Z.quot (Qnum x) (Zpos (Qden x)).

End Py.

Import Py.

(** ** The record store *)

Record user_row : Type := mk_user {
  users_id : Z;
  users_username : string;
  users_password : string;
  users_age : Q;
  users_gender : string;
  users_weight : Q;
  users_height : Q;
  users_fitness_goal : string;
  users_bmr : option Q
}.

Record exercise_row : Type := mk_exercise {
  exercises_user_id : Z;
  exercises_name : string;
  exercises_reps : option Q;
  exercises_weight : option Q;
  exercises_duration : option Q;
  exercises_distance : option Q;
  exercises_timestamp : Z
}.

Record routine_row : Type := mk_routine {
  routines_user_id : Z;
  routines_routine_name : string;
  routines_exercise_name : string;
  routines_reps : Q;
  routines_weight : Q;
  routines_sets : Z;
  routines_duration : Q;
  routines_distance : Q
}.

Record goal_row : Type := mk_goal {
  goals_id : Z;
  goals_user_id : Z;
  goals_daily_calorie_goal : option Q;
  goals_exercise_name : option string;
  goals_target_reps : option Q;
  goals_target_weight : option Q;
  goals_target_duration : option Q;
  goals_target_distance : option Q
}.

Record other_exercise_row : Type := mk_other_exercise {
  other_user_id : option Z;
  other_name : string;
  light_intensity : Q;
  moderate_intensity : Q;
  intense_intensity : Q
}.

(** [users_seq] and [goals_seq] are the AUTOINCREMENT counters: the
    last identifier handed out in each table. *)
Record database : Type := mk_database {
  users : list user_row;
  users_seq : Z;
  exercises : list exercise_row;
  routines : list routine_row;
  goals : list goal_row;
  goals_seq : Z;
  other_exercises : list other_exercise_row
}.

Definition empty_database : database :=
  mk_database [] 0 [] [] [] 0 [].

Definition set_users (us : list user_row) (seq : Z) (d : database) : database :=
  mk_database us seq (exercises d) (routines d) (goals d) (goals_seq d)
              (other_exercises d).

Definition set_routines (rs : list routine_row) (d : database) : database :=
  mk_database (users d) (users_seq d) (exercises d) rs (goals d) (goals_seq d)
              (other_exercises d).

Definition set_goals (gs : list goal_row) (seq : Z) (d : database) : database :=
  mk_database (users d) (users_seq d) (exercises d) (routines d) gs seq
              (other_exercises d).

Definition set_other_exercises (os : list other_exercise_row) (d : database)
  : database :=
  mk_database (users d) (users_seq d) (exercises d) (routines d) (goals d)
              (goals_seq d) os.

(** ** The terminal and the connection *)

Inductive event : Type :=
| Line (s : string)
| CtrlC.

Record world : Type := mk_world {
  stdin : list event;
  committed : database;
  working : database
}.

Definition M (A : Type) : Type := world -> outcome A * world.

Definition ret {A} (a : A) : M A := fun w => (Ok a, w).

Definition bind {A B} (m : M A) (k : A -> M B) : M B :=
  fun w =>
    match m w with
    | (Ok a, w') => k a w'
    | (Raise e, w') => (Raise e, w')
    | (Diverged, w') => (Diverged, w')
    end.

Definition raise {A} (e : exn) : M A := fun w => (Raise e, w).

Definition diverged {A} : M A := fun w => (Diverged, w).

Definition lift {A} (r : outcome A) : M A := fun w => (r, w).

(** [try: body  except <handles>: handler]. *)
Definition try_except {A} (body : M A) (handles : exn -> bool)
           (handler : exn -> M A) : M A :=
  fun w =>
    match body w with
    | (Raise e, w') => if handles e then handler e w' else (Raise e, w')
    | r => r
    end.

Declare Scope py_scope.
Delimit Scope py_scope with py.
Notation "x <- m ;; k" := (bind m (fun x => k))
  (at level 61, m at next level, right associativity) : py_scope.
Notation "m ;;; k" := (bind m (fun _ => k))
  (at level 61, right associativity) : py_scope.
Open Scope py_scope.

Definition set_stdin (ins : list event) (w : world) : world :=
  mk_world ins (committed w) (working w).

Definition set_working (d : database) (w : world) : world :=
  mk_world (stdin w) (committed w) d.

(** A statement reading the database through the open cursor. *)
Definition query {A} (f : database -> A) : M A :=
  fun w => (Ok (f (working w)), w).

(** A statement writing the database through the open cursor. *)
Definition execute (f : database -> database) : M unit :=
  fun w => (Ok tt, set_working (f (working w)) w).

Definition commit : M unit :=
  fun w => (Ok tt, mk_world (stdin w) (working w) (working w)).

Definition rollback : M unit :=
  fun w => (Ok tt, mk_world (stdin w) (committed w) (committed w)).

(** [with sqlite3.connect(path) as conn: body]: a new connection sees
    the committed store; leaving the block commits, leaving it by an
    exception rolls back and lets the exception through. *)
Definition with_connection {A} (body : M A) : M A :=
  fun w =>
    match body (mk_world (stdin w) (committed w) (committed w)) with
    | (Ok a, w') => (Ok a, snd (commit w'))
    | (Raise e, w') => (Raise e, snd (rollback w'))
    | (Diverged, w') => (Diverged, w')
    end.

(** [input(prompt)]. *)
Definition input : M string :=
  fun w =>
    match stdin w with
    | [] => (Raise EOFError, w)
    | Line s :: rest => (Ok s, set_stdin rest w)
    | CtrlC :: rest => (Raise KeyboardInterrupt, set_stdin rest w)
    end.

(** ** Metric calculator *)

Definition calculate_bmr (gender : string) (weight height age : Q)
  : outcome (option Q) :=
  if lower gender =? "female" then
    Ok (Some (655.1 + (9.563 * weight) + (1.850 * height) - (4.676 * age)))
  else if lower gender =? "male" then
    Ok (Some (66.47 + (13.75 * weight) + (5.003 * height) - (6.755 * age)))
  else
    Ok None.

(** [bmr] is whatever [calculate_bmr] returned; arithmetic on [None]
    is a [TypeError]. *)
Definition calculate_goal_calories (bmr : option Q) (fitness_goal : string)
  : outcome Q :=
  match bmr with
  | None => Raise TypeError
  | Some b =>
      if fitness_goal =? "lose" then Ok (b - 300)
      else if fitness_goal =? "gain" then Ok (b + 300)
      else Ok b
  end.

Definition calculate_daily_calories (calories_consumed calories_burned : Q) : Q :=
  calories_consumed - calories_burned.

(** ** A decimal reader for examples

    [float()] itself is a parameter of the development (see
    [Section Tracker]); the examples instantiate it with this reader of
    unsigned decimal integers. *)

Definition digit_of_ascii (c : ascii) : option Z :=
  let n := nat_of_ascii c in
  if (48 <=? n)%nat && (n <=? 57)%nat then Some (Z.of_nat (n - 48)) else None.

Fixpoint read_digits (s : string) (acc : Z) : option Z :=
  match s with
  | EmptyString => Some acc
  | String c rest =>
      match digit_of_ascii c with
      | Some d => read_digits rest (10 * acc + d)%Z
      | None => None
      end
  end.

Definition read_decimal (s : string) : option Q :=
  match s with
  | EmptyString => None
  | _ => option_map inject_Z (read_digits s 0%Z)
  end.

(** ** Prompts *)

(** A prompt repeated until the line typed is accepted. *)
Fixpoint input_until {A} (accept : string -> option A) (ins : list event)
  : outcome A * list event :=
  match ins with
  | [] => (Raise EOFError, [])
  | CtrlC :: rest => (Raise KeyboardInterrupt, rest)
  | Line s :: rest =>
      match accept s with
      | Some a => (Ok a, rest)
      | None => input_until accept rest
      end
  end.

Definition on_stdin {A} (f : list event -> outcome A * list event) : M A :=
  fun w => let (r, rest) := f (stdin w) in (r, set_stdin rest w).

(** The gender prompt of [register]: the lowered line, once it is
    ['male'] or ['female']. *)
Definition accept_gender (s : string) : option string :=
  let gender := lower s in
  if (gender =? "male") || (gender =? "female") then Some gender else None.

(** The fitness-goal prompt of [register]. *)
Definition accept_fitness_goal (s : string) : option string :=
  let fitness_goal := lower s in
  if (fitness_goal =? "lose") || (fitness_goal =? "gain")
     || (fitness_goal =? "maintain")
  then Some fitness_goal else None.

(** ** Statements on the tables *)

(** [SELECT * FROM users WHERE username = ?] then [fetchone()]. *)
Definition select_user_by_username (username : string) (d : database)
  : option user_row :=
  find (fun u => users_username u =? username) (users d).

(** [INSERT INTO users (...)]: [UNIQUE(username)] is checked by the
    store; the new identifier is [cursor.lastrowid]. *)
Definition insert_user (username password : string) (age : Q) (gender : string)
           (weight height : Q) (fitness_goal : string) (bmr : option Q) : M Z :=
  fun w =>
    let d := working w in
    if existsb (fun u => users_username u =? username) (users d) then
      (Raise IntegrityError, w)
    else
      let id := (users_seq d + 1)%Z in
      (Ok id,
       set_working
         (set_users (users d ++ [mk_user id username password age gender weight
                                         height fitness_goal bmr]) id d) w).

(** [INSERT INTO goals (user_id, daily_calorie_goal) VALUES (?, ?)]. *)
Definition insert_calorie_goal (user_id : Z) (daily_calorie_goal : Q)
           (d : database) : database :=
  let id := (goals_seq d + 1)%Z in
  set_goals
    (goals d ++ [mk_goal id user_id (Some daily_calorie_goal)
                         None None None None None]) id d.

(** The built-in catalog of [get_other_exercises]. *)
Definition pregenerated_exercises : list (string * Q * Q * Q) :=
  [ ("Running", 8, 11, 14);
    ("Swimming", 11, 14, 17);
    ("Padel", 5, 8, 11);
    ("Climbing", 7, 10, 13) ].

(** [INSERT OR IGNORE INTO other_exercises (...)]: a row whose name is
    already present ([name TEXT UNIQUE]) is skipped. *)
Definition insert_or_ignore_other_exercise (user_id : Z)
           (exercise : string * Q * Q * Q) (d : database) : database :=
  let '(name, light, moderate, intense) := exercise in
  if existsb (fun o => other_name o =? name) (other_exercises d) then d
  else
    set_other_exercises
      (other_exercises d
         ++ [mk_other_exercise (Some user_id) name light moderate intense]) d.

(** [WHERE user_id = ? OR user_id IS NULL]. *)
Definition other_exercise_visible (user_id : Z) (o : other_exercise_row) : bool :=
  match other_user_id o with
  | Some owner => (owner =? user_id)%Z
  | None => true
  end.

(** The dictionary [{"light": .., "moderate": .., "intense": ..}]. *)
Record intensities : Type := mk_intensities {
  light : Q;
  moderate : Q;
  intense : Q
}.

(** A Python dict with string keys, in insertion order. *)
Definition dict (V : Type) : Type := list (string * V).

Fixpoint dict_set {V} (k : string) (v : V) (m : dict V) : dict V :=
  match m with
  | [] => [(k, v)]
  | (k', v') :: rest =>
      if k' =? k then (k', v) :: rest else (k', v') :: dict_set k v rest
  end.

Fixpoint dict_get {V} (k : string) (m : dict V) : option V :=
  match m with
  | [] => None
  | (k', v') :: rest => if k' =? k then Some v' else dict_get k rest
  end.

Definition get_other_exercises (user_id : Z) : M (dict intensities) :=
  try_except
    (with_connection (
       execute (fun d =>
                  fold_left (fun d' exercise =>
                               insert_or_ignore_other_exercise user_id exercise d')
                            pregenerated_exercises d) ;;;
       rows <- query (fun d => filter (other_exercise_visible user_id)
                                      (other_exercises d)) ;;
       ret (fold_left
              (fun fetch_other_exercises row =>
                 dict_set (other_name row)
                          (mk_intensities (light_intensity row)
                                          (moderate_intensity row)
                                          (intense_intensity row))
                          fetch_other_exercises)
              rows [])))
    is_sqlite_error
    (fun e => rollback ;;; raise e).

Section Tracker.

(** [float(s)]: the number a line denotes, [None] where Python raises
    [ValueError].  Numbers are rationals: a line that [float] reads as
    an infinity or as a NaN is outside the model. *)
Variable float_of_string : string -> option Q.

(** [float(input(prompt))]. *)
Definition float_input : M Q :=
  s <- input ;;
  match float_of_string s with
  | Some x => ret x
  | None => raise ValueError
  end.

(** [get_float_input]: asks again on [ValueError]. *)
Definition get_float_input : M Q :=
  on_stdin (input_until float_of_string).

Definition register : M (option Z) :=
  try_except
    (with_connection (
       username <- input ;;
       existing_user <- query (select_user_by_username username) ;;
       match existing_user with
       | Some _ => ret None
       | None =>
           password <- input ;;
           age <- float_input ;;
           gender <- on_stdin (input_until accept_gender) ;;
           weight <- float_input ;;
           height <- float_input ;;
           fitness_goal <- on_stdin (input_until accept_fitness_goal) ;;
           bmr <- lift (calculate_bmr gender weight height age) ;;
           initial_calorie_goal <-
             lift (calculate_goal_calories bmr fitness_goal) ;;
           user_id <- insert_user username password age gender weight height
                                  fitness_goal bmr ;;
           execute (insert_calorie_goal user_id initial_calorie_goal) ;;;
           ret (Some user_id)
       end))
    is_sqlite_error
    (fun e => rollback ;;; raise e).

(** *** Routine entry *)

(** [SELECT * FROM routines WHERE user_id = ? AND routine_name = ?]
    then [fetchone()]. *)
Definition select_routine (user_id : Z) (routine_name : string) (d : database)
  : option routine_row :=
  find (fun r => (routines_user_id r =? user_id)%Z
                 && (routines_routine_name r =? routine_name))
       (routines d).

Definition insert_routine (r : routine_row) (d : database) : database :=
  set_routines (routines d ++ [r]) d.

(** [for set_number in range(1, int(sets) + 1)], with [n] sets left. *)
Fixpoint routine_sets (n : nat) (set_number : Z) (user_id : Z)
         (routine_name exercise_name : string)
         (exercise_list : list routine_row) : M (list routine_row) :=
  match n with
  | O => ret exercise_list
  | S n' =>
      reps <- get_float_input ;;
      weight <- get_float_input ;;
      duration <- get_float_input ;;
      distance <- get_float_input ;;
      routine_sets n' (set_number + 1)%Z user_id routine_name exercise_name
                   (exercise_list
                      ++ [mk_routine user_id routine_name exercise_name reps
                                     weight set_number duration distance])
  end.

(** The [while True] loop, bounded by [fuel] iterations. *)
Fixpoint routine_entries (fuel : nat) (user_id : Z) (routine_name : string)
         (exercise_list : list routine_row) : M (list routine_row) :=
  match fuel with
  | O => diverged
  | S fuel' =>
      exercise_name <- input ;;
      if lower exercise_name =? "end" then ret exercise_list
      else
        sets <- get_float_input ;;
        if Qlt_le_dec 0 sets then
          exercise_list' <-
            routine_sets (Z.to_nat (int sets)) 1%Z user_id routine_name
                         exercise_name exercise_list ;;
          routine_entries fuel' user_id routine_name exercise_list'
        else
          reps <- get_float_input ;;
          weight <- get_float_input ;;
          duration <- get_float_input ;;
          distance <- get_float_input ;;
          routine_entries fuel' user_id routine_name
                          (exercise_list
                             ++ [mk_routine user_id routine_name exercise_name
                                            reps weight 1%Z duration distance])
  end.

Definition is_keyboard_interrupt (e : exn) : bool :=
  match e with
  | KeyboardInterrupt => true
  | _ => false
  end.

(** Every pass of the loop reads a line, so one more pass than there
    are pending events is enough. *)
Definition pending_events : M nat :=
  fun w => (Ok (S (List.length (stdin w))), w).

(** The [try] block of [create_routine]. *)
Definition routine_attempt (user_id : Z) : M unit :=
  routine_name <- input ;;
  existing <- query (select_routine user_id routine_name) ;;
  match existing with
  | Some _ => input ;;; ret tt
  | None => ret tt
  end ;;;
  fuel <- pending_events ;;
  exercise_list <- routine_entries fuel user_id routine_name [] ;;
  execute (fun d => fold_left (fun d' exercise => insert_routine exercise d')
                              exercise_list d) ;;;
  input ;;;
  commit.

Definition create_routine (user_id : Z) : M unit :=
  with_connection (
    try_except (routine_attempt user_id)
               is_keyboard_interrupt
               (fun _ => rollback)).

(** *** Exercise progress *)

(** A row of the progress query: [entry[0]] and [entry[1:]]. *)
Definition progress_entry : Type := (option string * list (option Q))%type.

Definition is_not_null {A} (v : option A) : bool :=
  match v with
  | Some _ => true
  | None => false
  end.

(** The [WHERE] clause of the progress query. *)
Definition has_target (g : goal_row) : bool :=
  is_not_null (goals_target_reps g) || is_not_null (goals_target_weight g)
  || is_not_null (goals_target_distance g)
  || is_not_null (goals_target_duration g).

(** [g.exercise_name = e.name]; a NULL name equals nothing. *)
Definition name_matches (g : goal_row) (e : exercise_row) : bool :=
  match goals_exercise_name g with
  | Some name => name =? exercises_name e
  | None => false
  end.

(** The selected columns, in the order of the [SELECT]. *)
Definition join_row (g : goal_row) (e : option exercise_row) : progress_entry :=
  (goals_exercise_name g,
   [ goals_target_reps g; goals_target_weight g; goals_target_distance g;
     goals_target_duration g;
     match e with Some e => exercises_reps e | None => None end;
     match e with Some e => exercises_weight e | None => None end;
     match e with Some e => exercises_distance e | None => None end;
     match e with Some e => exercises_duration e | None => None end ]).

(** [goals g LEFT JOIN (exercises of the user) e ON g.exercise_name =
    e.name WHERE <some target is not NULL>]. *)
Definition progress_query (user_id : Z) (d : database) : list progress_entry :=
  flat_map
    (fun g =>
       match filter (fun e => (exercises_user_id e =? user_id)%Z
                              && name_matches g e) (exercises d) with
       | [] => [join_row g None]
       | es => map (fun e => join_row g (Some e)) es
       end)
    (filter has_target (goals d)).

(** [entry[k]] for [k >= 1]. *)
Definition entry_at (entry : progress_entry) (k : nat) : option Q :=
  nth (k - 1) (snd entry) None.

(** The [if]/[else] that follows the inner loop. *)
Definition percentage_progress (goal_value actual_value : option Q)
  : outcome Q :=
  match goal_value with
  | Some g =>
      if nonzero g then
        match actual_value with
        | Some a =>
            match div a g with
            | Ok q => Ok (min (q * 100) 100)
            | Raise e => Raise e
            | Diverged => Diverged
            end
        | None => Ok 0
        end
      else Ok 0
  | None => Ok 0
  end.

(** The inner [for entry in progress_data], whose body only assigns:
    it leaves [goal_value] and [actual_value] bound to the columns of
    the last entry, or unbound when there is none. *)
Definition last_assignment (i : nat) (progress_data : list progress_entry)
  : option (option Q * option Q) :=
  fold_left (fun _ entry => Some (entry_at entry (i + 1),
                                  entry_at entry (i + 5)))
            progress_data None.

(** [values] at the end of pass [i] of the loop over the categories. *)
Definition category_values (i : nat) (progress_data : list progress_entry)
  : outcome (list Q) :=
  match last_assignment i progress_data with
  | None => Raise UnboundLocalError
  | Some (goal_value, actual_value) =>
      match percentage_progress goal_value actual_value with
      | Ok p => Ok ([] ++ [p])%list
      | Raise e => Raise e
      | Diverged => Diverged
      end
  end.

Definition categories : list string :=
  ["Reps"; "Weight"; "Duration"; "Distance"].

(** What [plt.bar] and [plt.xticks] receive. *)
Record bar_chart : Type := mk_bar_chart {
  chart_exercise_names : list (option string);
  chart_label : string;
  chart_values : list Q
}.

(** The loop over [enumerate(categories)]: [plt.bar] comes after it
    and sees the category and the values of the last pass. *)
Fixpoint category_loop (cats : list (nat * string))
         (progress_data : list progress_entry)
         (last : option (string * list Q))
  : outcome (option (string * list Q)) :=
  match cats with
  | [] => Ok last
  | (i, category) :: rest =>
      match category_values i progress_data with
      | Ok values => category_loop rest progress_data (Some (category, values))
      | Raise e => Raise e
      | Diverged => Diverged
      end
  end.

Definition view_exercise_progress (user_id : Z) : M (option bar_chart) :=
  try_except
    (with_connection (
       progress_data <- query (progress_query user_id) ;;
       let exercise_names := map fst progress_data in
       let progress_data :=
         filter (fun entry => existsb truthy (snd entry)) progress_data in
       match progress_data with
       | [] => ret None
       | _ =>
           plotted <- lift (category_loop
                              (combine (seq 0 (List.length categories)) categories)
                              progress_data None) ;;
           match plotted with
           | Some (category, values) =>
               ret (Some (mk_bar_chart exercise_names category values))
           | None => raise UnboundLocalError
           end
       end))
    is_sqlite_error
    (fun _ => ret None).

(** *** Profile updates *)

(** The column [target_<attribute>] named by the formatted statements
    of option 2. *)
Inductive goal_attribute : Type :=
| Reps
| Weight
| Distance
| Duration.

(** SQL white space. *)
Definition is_sql_blank (c : ascii) : bool :=
  let n := nat_of_ascii c in
  (n =? 32)%nat || (n =? 9)%nat || (n =? 10)%nat || (n =? 12)%nat
  || (n =? 13)%nat.

(** Where the SQL tokenizer stands in what follows a column name:
    between tokens, after a [/], inside a [/* */] comment, or inside
    one after a [*]. *)
Inductive tokenizer_state : Type :=
| Between
| Slash
| Comment
| Star.

(** What may follow a column name and leave the statement as it is:
    white space and closed [/* */] comments. *)
Fixpoint immaterial (st : tokenizer_state) (s : string) : bool :=
  match s with
  | EmptyString =>
      match st with
      | Between => true
      | _ => false
      end
  | String c rest =>
      match st with
      | Between =>
          if is_sql_blank c then immaterial Between rest
          else if (c =? "/")%char then immaterial Slash rest
          else false
      | Slash => if (c =? "*")%char then immaterial Comment rest else false
      | Comment =>
          if (c =? "*")%char then immaterial Star rest
          else immaterial Comment rest
      | Star =>
          if (c =? "/")%char then immaterial Between rest
          else if (c =? "*")%char then immaterial Star rest
          else immaterial Comment rest
      end
  end.

(** [text] is [name] followed by immaterial characters. *)
Fixpoint names_column (name text : string) : bool :=
  match name, text with
  | EmptyString, _ => immaterial Between text
  | String c name', String c' text' =>
      (c =? c')%char && names_column name' text'
  | String _ _, EmptyString => false
  end.

(** The column the statements built with [target_<text>] address.  The
    text is pasted into the statements (the lookup, then the update or
    the insertion); it addresses a column when it is one of the four
    names, followed at most by white space and closed comments.  Any
    other text is taken to make a statement fail, as a text that names
    no column does; a text that carries an expression of its own (as
    in [reps = target_weight], which the lookup and the update accept)
    is outside the model. *)
Definition attribute_of_string (s : string) : option goal_attribute :=
  if names_column "reps" s then Some Reps
  else if names_column "weight" s then Some Weight
  else if names_column "distance" s then Some Distance
  else if names_column "duration" s then Some Duration
  else None.

Definition target (a : goal_attribute) (g : goal_row) : option Q :=
  match a with
  | Reps => goals_target_reps g
  | Weight => goals_target_weight g
  | Distance => goals_target_distance g
  | Duration => goals_target_duration g
  end.

Definition set_target (a : goal_attribute) (v : option Q) (g : goal_row)
  : goal_row :=
  match a with
  | Reps =>
      mk_goal (goals_id g) (goals_user_id g) (goals_daily_calorie_goal g)
              (goals_exercise_name g) v (goals_target_weight g)
              (goals_target_duration g) (goals_target_distance g)
  | Weight =>
      mk_goal (goals_id g) (goals_user_id g) (goals_daily_calorie_goal g)
              (goals_exercise_name g) (goals_target_reps g) v
              (goals_target_duration g) (goals_target_distance g)
  | Distance =>
      mk_goal (goals_id g) (goals_user_id g) (goals_daily_calorie_goal g)
              (goals_exercise_name g) (goals_target_reps g)
              (goals_target_weight g) (goals_target_duration g) v
  | Duration =>
      mk_goal (goals_id g) (goals_user_id g) (goals_daily_calorie_goal g)
              (goals_exercise_name g) (goals_target_reps g)
              (goals_target_weight g) v (goals_target_distance g)
  end.

(** [user_id = ? AND exercise_name = ?]. *)
Definition goal_of (user_id : Z) (exercise_name : string) (g : goal_row)
  : bool :=
  (goals_user_id g =? user_id)%Z
  && match goals_exercise_name g with
     | Some name => name =? exercise_name
     | None => false
     end.

(** [SELECT * FROM goals WHERE user_id = ? AND exercise_name = ? AND
    target_<attribute> IS NOT NULL] then [fetchone()]. *)
Definition select_goal (user_id : Z) (exercise_name : string)
           (a : goal_attribute) (d : database) : option goal_row :=
  find (fun g => goal_of user_id exercise_name g && is_not_null (target a g))
       (goals d).

(** [UPDATE goals SET target_<attribute> = ? WHERE user_id = ? AND
    exercise_name = ?]. *)
Definition update_goal_target (user_id : Z) (exercise_name : string)
           (a : goal_attribute) (target_value : Q) (d : database) : database :=
  set_goals
    (map (fun g => if goal_of user_id exercise_name g
                   then set_target a (Some target_value) g else g)
         (goals d))
    (goals_seq d) d.

(** [INSERT INTO goals (user_id, exercise_name, target_<attribute>)
    VALUES (?, ?, ?)]. *)
Definition insert_goal_target (user_id : Z) (exercise_name : string)
           (a : goal_attribute) (target_value : Q) (d : database) : database :=
  let id := (goals_seq d + 1)%Z in
  set_goals
    (goals d
       ++ [set_target a (Some target_value)
                      (mk_goal id user_id None (Some exercise_name)
                               None None None None)])
    id d.

(** The statements of option 2 once the attribute names a column. *)
Definition set_goal_attribute (user_id : Z) (exercise_name : string)
           (a : goal_attribute) (target_value : Q) : M unit :=
  existing_goal <- query (select_goal user_id exercise_name a) ;;
  match existing_goal with
  | Some _ => execute (update_goal_target user_id exercise_name a target_value)
  | None => execute (insert_goal_target user_id exercise_name a target_value)
  end.

(** [SELECT height, age, gender FROM users WHERE id = ?] then
    [fetchone()]. *)
Definition select_biometrics (user_id : Z) (d : database)
  : option (Q * Q * string) :=
  option_map (fun u => (users_height u, users_age u, users_gender u))
             (find (fun u => (users_id u =? user_id)%Z) (users d)).

Definition with_weight (new_weight : Q) (u : user_row) : user_row :=
  mk_user (users_id u) (users_username u) (users_password u) (users_age u)
          (users_gender u) new_weight (users_height u) (users_fitness_goal u)
          (users_bmr u).

Definition with_fitness_goal (new_goal : string) (u : user_row) : user_row :=
  mk_user (users_id u) (users_username u) (users_password u) (users_age u)
          (users_gender u) (users_weight u) (users_height u) new_goal
          (users_bmr u).

(** [UPDATE users SET weight = ? WHERE id = ?]. *)
Definition update_user_weight (user_id : Z) (new_weight : Q) (d : database)
  : database :=
  set_users
    (map (fun u => if (users_id u =? user_id)%Z
                   then with_weight new_weight u else u) (users d))
    (users_seq d) d.

(** [UPDATE users SET fitness_goal = ? WHERE id = ?]. *)
Definition update_user_fitness_goal (user_id : Z) (new_goal : string)
           (d : database) : database :=
  set_users
    (map (fun u => if (users_id u =? user_id)%Z
                   then with_fitness_goal new_goal u else u) (users d))
    (users_seq d) d.

Definition with_daily_calorie_goal (v : option Q) (g : goal_row) : goal_row :=
  mk_goal (goals_id g) (goals_user_id g) v (goals_exercise_name g)
          (goals_target_reps g) (goals_target_weight g)
          (goals_target_duration g) (goals_target_distance g).

(** [UPDATE goals SET daily_calorie_goal = ? WHERE user_id = ?]. *)
Definition update_daily_calorie_goal (user_id : Z) (v : option Q)
           (d : database) : database :=
  set_goals
    (map (fun g => if (goals_user_id g =? user_id)%Z
                   then with_daily_calorie_goal v g else g) (goals d))
    (goals_seq d) d.

(** Option 1 of [update_profile]. *)
Definition update_weight (user_id : Z) : M unit :=
  new_weight <- get_float_input ;;
  user_biometrics <- query (select_biometrics user_id) ;;
  match user_biometrics with
  | None => raise UnboundLocalError
  | Some (height, age, gender) =>
      new_bmr <- lift (calculate_bmr gender new_weight height age) ;;
      execute (update_user_weight user_id new_weight) ;;;
      execute (update_daily_calorie_goal user_id new_bmr) ;;;
      input ;;;
      ret tt
  end.

(** Option 2 of [update_profile].  An attribute that names no column
    makes the statement fail. *)
Definition add_exercise_goal (user_id : Z) : M unit :=
  exercise_name <- input ;;
  attribute <- input ;;
  target_value <- get_float_input ;;
  match attribute_of_string (lower attribute) with
  | None => raise OperationalError
  | Some a =>
      set_goal_attribute user_id exercise_name a target_value ;;;
      input ;;;
      ret tt
  end.

(** Option 3 of [update_profile]. *)
Definition update_fitness_goal (user_id : Z) : M unit :=
  line <- input ;;
  execute (update_user_fitness_goal user_id (lower line)) ;;;
  input ;;;
  ret tt.

Definition update_profile (user_id : Z) : M unit :=
  try_except
    (with_connection (
       option <- input ;;
       if option =? "1" then update_weight user_id
       else if option =? "2" then add_exercise_goal user_id
       else if option =? "3" then update_fitness_goal user_id
       else ret tt))
    is_sqlite_error
    (fun e => raise e).

(** A run from a store with nothing pending. *)
Definition start (ins : list event) (d : database) : world :=
  mk_world ins d d.

(** ** Further methods *)

Definition set_exercises (es : list exercise_row) (d : database) : database :=
  mk_database (users d) (users_seq d) es (routines d) (goals d) (goals_seq d)
              (other_exercises d).

(** *** Login *)

(** [SELECT * FROM users WHERE username = ? AND password = ?] then
    [fetchone()]. *)
Definition select_user_by_credentials (username password : string)
           (d : database) : option user_row :=
  find (fun u => (users_username u =? username)
                 && (users_password u =? password)) (users d).

(** The [with] block of [login] holds only the cursor; the prompts and
    the query come after it. *)
Definition login : M (option user_row) :=
  try_except
    (with_connection (ret tt) ;;;
     username <- input ;;
     password <- input ;;
     query (select_user_by_credentials username password))
    is_sqlite_error
    (fun e => raise e).

(** *** Exercise log *)

(** [INSERT INTO exercises (user_id, name, reps, weight, duration,
    distance)]; the timestamp column takes the clock's value [now]. *)
Definition insert_exercise (user_id : Z) (name : string)
           (reps weight duration distance : Q) (now : Z) (d : database)
  : database :=
  set_exercises
    (exercises d ++ [mk_exercise user_id name (Some reps) (Some weight)
                                 (Some duration) (Some distance) now]) d.

Definition log_exercise (user_id now : Z) : M unit :=
  try_except
    (with_connection (
       exercise_name <- input ;;
       reps <- get_float_input ;;
       weight <- get_float_input ;;
       duration <- get_float_input ;;
       distance <- get_float_input ;;
       execute (insert_exercise user_id exercise_name reps weight duration
                                distance now) ;;;
       input ;;;
       commit))
    is_sqlite_error
    (fun e => rollback ;;; raise e).

(** *** Custom exercises *)

(** [INSERT INTO other_exercises (...)]: a name already in the table
    violates [name TEXT UNIQUE]. *)
Definition insert_other_exercise (user_id : Z) (name : string)
           (light_value moderate_value intense_value : Q) : M unit :=
  fun w =>
    let d := working w in
    if existsb (fun o => other_name o =? name) (other_exercises d) then
      (Raise IntegrityError, w)
    else
      (Ok tt,
       set_working
         (set_other_exercises
            (other_exercises d
               ++ [mk_other_exercise (Some user_id) name light_value
                                     moderate_value intense_value]) d) w).

Definition add_custom_exercise (user_id : Z) : M unit :=
  try_except
    (with_connection (
       exercise_name <- input ;;
       light_value <- get_float_input ;;
       moderate_value <- get_float_input ;;
       intense_value <- get_float_input ;;
       insert_other_exercise user_id exercise_name light_value moderate_value
                             intense_value))
    is_sqlite_error
    (fun e => rollback ;;; raise e).

(** *** Calories burned *)

Definition calculate_calories_burned_weightlifting (intensity : string)
           (duration : Q) : Q :=
  if intensity =? "1" then 4 * duration
  else if intensity =? "2" then 6 * duration
  else if intensity =? "3" then 10 * duration
  else 0.

Definition calculate_calories_burned_other_exercises (user_id : Z)
           (selected_exercise intensity : string) (duration : Q) : M Q :=
  try_except
    (with_connection (
       exercises <- get_other_exercises user_id ;;
       match dict_get selected_exercise exercises with
       | Some coefficients =>
           if intensity =? "1" then ret (light coefficients * duration)
           else if intensity =? "2" then ret (moderate coefficients * duration)
           else if intensity =? "3" then ret (intense coefficients * duration)
           else ret 0
       | None => ret 0
       end))
    is_sqlite_error
    (fun e => raise e).

(** *** The calories table

    The table [calories] is passed to the methods that use it and
    handed back by the ones that write it: the table returned is the one
    the connection commits, and a method that raises leaves the table it
    was given. *)

Record calorie_row : Type := mk_calorie {
  calories_user_id : Z;
  calories_burned : option Q;
  calories_consumed : option Q;
  calories_timestamp : Z
}.

(** [SELECT daily_calorie_goal FROM goals WHERE user_id = ?] then
    [fetchone()]: the first goal row of the user. *)
Definition select_daily_calorie_goal (user_id : Z) (d : database)
  : option (option Q) :=
  option_map goals_daily_calorie_goal
             (find (fun g => (goals_user_id g =? user_id)%Z) (goals d)).

(** [log_food] on the date [today]. *)
Definition log_food (user_id today : Z) (calories : list calorie_row)
  : M (list calorie_row) :=
  try_except
    (with_connection (
       calories_eaten <- get_float_input ;;
       if Qlt_le_dec 0 calories_eaten then
         result <- query (select_daily_calorie_goal user_id) ;;
         match result with
         | Some (Some daily_calorie_goal) => ret tt
         | Some None => raise TypeError
         | None => ret tt
         end ;;;
         input ;;;
         commit ;;;
         ret (calories
                ++ [mk_calorie user_id None (Some calories_eaten) today])%list
       else ret calories))
    is_sqlite_error
    (fun e => rollback ;;; raise e).

(** SQL [SUM]: NULLs are skipped, and the sum of no value is NULL. *)
Definition sql_sum (values : list (option Q)) : option Q :=
  fold_left (fun acc v =>
               match v, acc with
               | None, _ => acc
               | Some x, None => Some x
               | Some x, Some a => Some (a + x)
               end) values None.

(** The distinct dates of a table in ascending order ([GROUP BY
    timestamp ORDER BY timestamp]). *)
Fixpoint insert_date (t : Z) (dates : list Z) : list Z :=
  match dates with
  | [] => [t]
  | t' :: rest =>
      if (t <? t')%Z then t :: t' :: rest
      else if (t =? t')%Z then t' :: rest
      else t' :: insert_date t rest
  end.

Definition group_dates (rows : list calorie_row) : list Z :=
  fold_right insert_date [] (map calories_timestamp rows).

(** [SELECT timestamp, SUM(calories_consumed), SUM(calories_burned)
    FROM calories WHERE user_id = ? GROUP BY timestamp ORDER BY
    timestamp]. *)
Definition caloric_query (user_id : Z) (calories : list calorie_row)
  : list (Z * option Q * option Q) :=
  let mine := filter (fun c => (calories_user_id c =? user_id)%Z) calories in
  map (fun t =>
         let day := filter (fun c => (calories_timestamp c =? t)%Z) mine in
         (t, sql_sum (map calories_consumed day),
          sql_sum (map calories_burned day)))
      (group_dates mine).

(** [entry if entry is not None else 0]. *)
Definition or_zero (v : option Q) : Q :=
  match v with
  | Some x => x
  | None => 0
  end.

(** What [plt.plot] and [plt.axhline] receive. *)
Record caloric_chart : Type := mk_caloric_chart {
  chart_dates : list Z;
  chart_net_calories : list Q;
  chart_goal_line : option Q
}.

(** [cursor.fetchone()[0]]: subscripting [None] is a [TypeError]. *)
Definition first_column {A} (row : option A) : M A :=
  match row with
  | Some v => ret v
  | None => raise TypeError
  end.

Definition view_caloric_progress (user_id : Z) (calories : list calorie_row)
  : M (option caloric_chart) :=
  try_except
    (with_connection (ret tt) ;;;
     bmr_row <- query (fun d =>
                         option_map users_bmr
                                    (find (fun u => (users_id u =? user_id)%Z)
                                          (users d))) ;;
     bmr <- first_column bmr_row ;;
     goal_row <- query (select_daily_calorie_goal user_id) ;;
     daily_calorie_goal <- first_column goal_row ;;
     let data := caloric_query user_id calories in
     match data with
     | [] => input ;;; ret None
     | _ =>
         let dates := map (fun entry => fst (fst entry)) data in
         let total_calories_consumed :=
           map (fun entry => or_zero (snd (fst entry))) data in
         let total_calories_burned :=
           map (fun entry => or_zero (snd entry)) data in
         let net_calories :=
           map (fun p => calculate_daily_calories (fst p) (snd p))
               (combine total_calories_consumed total_calories_burned) in
         ret (Some (mk_caloric_chart dates net_calories daily_calorie_goal))
     end)
    is_sqlite_error
    (fun e => raise e).

(** ** Vocabulary of the statements *)

(** A step that leaves both copies of the store as they were. *)
Definition same_db (w w' : world) : Prop :=
  committed w' = committed w /\ working w' = working w.

(** The number of user rows that carry a username. *)
Definition username_count (username : string) (d : database) : nat :=
  List.length (filter (fun u => users_username u =? username) (users d)).

(** A computation that never touches the committed store. *)
Definition keeps_committed {A} (m : M A) : Prop :=
  forall w r w', m w = (r, w') -> committed w' = committed w.

(** A computation that touches the committed store only when it ends
    normally. *)
Definition publishes_only_on_success {A} (m : M A) : Prop :=
  forall w r w',
    m w = (r, w') -> (forall a, r <> Ok a) -> committed w' = committed w.

(** A computation that does not lengthen the pending input. *)
Definition consumes {A} (m : M A) : Prop :=
  forall w r w', m w = (r, w') ->
                 (List.length (stdin w') <= List.length (stdin w))%nat.

(** The store on disk once [m] has run on the input [ins] from [d]. *)
Definition store_after {A} (m : M A) (ins : list event) (d : database)
  : database :=
  committed (snd (m (start ins d))).

(** What [m] returns or raises on the input [ins] from [d]. *)
Definition result_of {A} (m : M A) (ins : list event) (d : database)
  : outcome A :=
  fst (m (start ins d)).

(** The logged entry with the greatest timestamp. *)
Definition most_recent (es : list exercise_row) : option exercise_row :=
  fold_left (fun best e =>
               match best with
               | Some b =>
                   if (exercises_timestamp b <? exercises_timestamp e)%Z
                   then Some e else Some b
               | None => Some e
               end) es None.

(** The progress query as the specification words it: the goal rows of
    the user that have a target, each joined with the most recent entry
    the user logged under the goal's exercise name, or with nulls. *)
Definition progress_query_spec (user_id : Z) (d : database)
  : list progress_entry :=
  map (fun g =>
         join_row g (most_recent
                       (filter (fun e => (exercises_user_id e =? user_id)%Z
                                         && name_matches g e) (exercises d))))
      (filter (fun g => (goals_user_id g =? user_id)%Z && has_target g)
              (goals d)).

(** ** Scenarios *)


(** The store that dialogue leaves when the store was empty. *)
Definition ann_registered : database :=
  mk_database
    [mk_user 1 "ann" "pw" 30 "female" 60 165 "lose"
             (Some (655.1 + 9.563 * 60 + 1.850 * 165 - 4.676 * 30))]
    1 [] []
    [mk_goal 1 1 (Some (655.1 + 9.563 * 60 + 1.850 * 165 - 4.676 * 30 - 300))
             None None None None None]
    1 [].

(** Option 1 of the profile menu with the new weight 70. *)
Definition weighs_70 : list event :=
  [Line "1"; Line "70"; Line ""].

(** Option 2 of the profile menu for the exercise Squat. *)
Definition squat_goal (attribute value : string) : list event :=
  [Line "2"; Line "Squat"; Line attribute; Line value; Line ""].

(** User 1 has a goal on Squat and logged Squat twice; user 2 has a
    goal on Bench. *)
Definition two_users_store : database :=
  mk_database
    [] 2
    [mk_exercise 1 "Squat" (Some 6) None None None 1;
     mk_exercise 1 "Squat" (Some 8) None None None 2]
    []
    [mk_goal 1 1 None (Some "Squat") (Some 10) None None None;
     mk_goal 2 2 None (Some "Bench") (Some 5) None None None]
    2 [].

(** A one-set routine typed in full, then an interrupt at the closing
    prompt. *)
Definition interrupted_entry : list event :=
  [Line "Legs"; Line "Squat"; Line "1"; Line "10"; Line "50"; Line "0";
   Line "0"; Line "end"; CtrlC].

(** A computation that leaves both copies of the store as they were,
    however it ends. *)
Definition read_only {A} (m : M A) : Prop :=
  forall w r w', m w = (r, w') -> same_db w w'.

(** A computation that leaves both copies of the store as they were
    whenever its outcome is one of [quiet]. *)
Definition silent_when {A} (quiet : outcome A -> Prop) (m : M A) : Prop :=
  forall w r w', m w = (r, w') -> quiet r -> same_db w w'.

(** [UNIQUE(username)] on the users table. *)
Definition unique_usernames (d : database) : Prop :=
  NoDup (map users_username (users d)).

(** No identifier in the users table is beyond the AUTOINCREMENT
    counter. *)
Definition user_ids_bounded (d : database) : Prop :=
  Forall (fun u => (users_id u <= users_seq d)%Z) (users d).

(** The store once the catalog has been offered to it for a user. *)
Definition seeded (user_id : Z) (d : database) : database :=
  fold_left (fun d' exercise =>
               insert_or_ignore_other_exercise user_id exercise d')
            pregenerated_exercises d.

(** The coefficients of a row as a dictionary value. *)
Definition intensities_of (o : other_exercise_row) : intensities :=
  mk_intensities (light_intensity o) (moderate_intensity o)
                 (intense_intensity o).

(** [name TEXT UNIQUE] on the custom-exercise table. *)
Definition unique_exercise_names (d : database) : Prop :=
  NoDup (map other_name (other_exercises d)).

(** The name of a catalog entry. *)
Definition catalog_name (exercise : string * Q * Q * Q) : string :=
  fst (fst (fst exercise)).

(** Leaving a [with] block: commit on a return, roll back on an
    exception. *)
Definition leave_block {A} (res : outcome A * world) : outcome A * world :=
  match res with
  | (Ok a, w) => (Ok a, snd (commit w))
  | (Raise e, w) => (Raise e, snd (rollback w))
  | (Diverged, w) => (Diverged, w)
  end.

(** The store once option 2 has written the target [v]. *)
Definition goal_written (user_id : Z) (exercise_name : string)
           (a : goal_attribute) (v : Q) (d : database) : database :=
  match select_goal user_id exercise_name a d with
  | Some _ => update_goal_target user_id exercise_name a v d
  | None => insert_goal_target user_id exercise_name a v d
  end.

(** [g'] is [g] up to the target [a]; it is [g] itself unless [g] is a
    goal of the user on the exercise. *)
Definition same_goal_but (a : goal_attribute) (user_id : Z)
           (exercise_name : string) (g g' : goal_row) : Prop :=
  goals_id g' = goals_id g
  /\ goals_user_id g' = goals_user_id g
  /\ goals_daily_calorie_goal g' = goals_daily_calorie_goal g
  /\ goals_exercise_name g' = goals_exercise_name g
  /\ (forall b, b <> a -> target b g' = target b g)
  /\ (goal_of user_id exercise_name g = false -> g' = g).

(** The sum of a column over rows, NULL counting as 0. *)
Definition total (column : calorie_row -> option Q) (rows : list calorie_row)
  : Q :=
  fold_right (fun c acc => or_zero (column c) + acc) 0 rows.

(** The calorie rows of a user on a date. *)
Definition rows_on (user_id t : Z) (calories : list calorie_row)
  : list calorie_row :=
  filter (fun c => (calories_timestamp c =? t)%Z)
         (filter (fun c => (calories_user_id c =? user_id)%Z) calories).

(** Calories consumed minus calories burned by a user on a date. *)
Definition net_on (user_id t : Z) (calories : list calorie_row) : Q :=
  total calories_consumed (rows_on user_id t calories)
  - total calories_burned (rows_on user_id t calories).

(** A second registration dialogue. *)
Definition bob_registers : list event :=
  [Line "bob"; Line "secret"; Line "41"; Line "MALE"; Line "80"; Line "180";
   Line "Gain"].

(** A best set of Squat typed into the exercise log. *)
Definition squat_logged : list event :=
  [Line "Squat"; Line "8"; Line "50"; Line "0"; Line "0"; Line ""].

(** The goal row of user 1 on Squat in [two_users_store]. *)
Definition squat_goal_row : goal_row :=
  mk_goal 1 1 None (Some "Squat") (Some 10) None None None.

(** A one-set routine typed in full and confirmed. *)
Definition completed_entry : list event :=
  [Line "Legs"; Line "Squat"; Line "1"; Line "10"; Line "50"; Line "0";
   Line "0"; Line "end"; Line ""].


(** The same dialogue under a catalog name. *)
Definition running_added : list event :=
  [Line "Running"; Line "6"; Line "9"; Line "12"].

(** 2200 calories consumed and 500 burned by user 1 on day 5. *)
Definition one_day : list calorie_row :=
  [mk_calorie 1 None (Some 2200) 5; mk_calorie 1 (Some 500) None 5].





(** A text of ASCII characters. *)
Fixpoint ascii_only (s : string) : bool :=
  match s with
  | EmptyString => true
  | String c rest => (nat_of_ascii c <? 128)%nat && ascii_only rest
  end.

(** The four lines typed for one set. *)
Record typed_set : Type := mk_typed_set {
  typed_reps : string;
  typed_weight : string;
  typed_duration : string;
  typed_distance : string
}.

(** What is typed for one exercise of a routine: its name, the number
    of sets and the sets. *)
Record typed_exercise : Type := mk_typed_exercise {
  typed_name : string;
  typed_sets : string;
  typed_rows : list typed_set
}.

(** A line that [float] reads as a number, finite as the numbers of
    the model are. *)
Definition numeric (s : string) : Prop := float_of_string s <> None.

(** The number a numeric line denotes. *)
Definition number (s : string) : Q :=
  match float_of_string s with
  | Some x => x
  | None => 0
  end.

Definition set_lines (t : typed_set) : list event :=
  [Line (typed_reps t); Line (typed_weight t); Line (typed_duration t);
   Line (typed_distance t)].

Definition exercise_lines (e : typed_exercise) : list event :=
  Line (typed_name e) :: Line (typed_sets e)
       :: flat_map set_lines (typed_rows e).

(** The sets [create_routine] asks for after the number of sets:
    [int(sets)] of them when [sets > 0], one otherwise. *)
Definition sets_asked (sets : Q) : nat :=
  if Qlt_le_dec 0 sets then Z.to_nat (int sets) else 1%nat.

Definition well_typed_set (t : typed_set) : Prop :=
  numeric (typed_reps t) /\ numeric (typed_weight t)
  /\ numeric (typed_duration t) /\ numeric (typed_distance t).

(** An exercise typed as the prompts ask: a name that is not the
    closing word, a number of sets, and as many sets as asked for, all
    in numbers. *)
Definition well_typed_exercise (e : typed_exercise) : Prop :=
  lower (typed_name e) <> "end"
  /\ numeric (typed_sets e)
  /\ Forall well_typed_set (typed_rows e)
  /\ List.length (typed_rows e) = sets_asked (number (typed_sets e)).

(** The routine rows of the sets of one exercise, numbered from
    [set_number] on. *)
Fixpoint numbered_rows (user_id : Z) (routine_name exercise_name : string)
         (set_number : Z) (ts : list typed_set) : list routine_row :=
  match ts with
  | [] => []
  | t :: ts' =>
      mk_routine user_id routine_name exercise_name (number (typed_reps t))
                 (number (typed_weight t)) set_number
                 (number (typed_duration t)) (number (typed_distance t))
      :: numbered_rows user_id routine_name exercise_name (set_number + 1)%Z
                       ts'
  end.

Definition exercise_rows (user_id : Z) (routine_name : string)
           (e : typed_exercise) : list routine_row :=
  numbered_rows user_id routine_name (typed_name e) 1%Z (typed_rows e).

(** The line that acknowledges the warning about a routine name in
    use; nothing is asked when the name is new. *)
Definition acknowledgement (user_id : Z) (routine_name ack : string)
           (d : database) : list event :=
  match select_routine user_id routine_name d with
  | Some _ => [Line ack]
  | None => []
  end.

(** The Squat exercise of [completed_entry]: one set of 10 reps at
    50 kg. *)
Definition squat_typed : typed_exercise :=
  mk_typed_exercise "Squat" "1" [mk_typed_set "10" "50" "0" "0"].

(** ** Reasoning about runs *)

Lemma bind_ok {A B} (m : M A) (k : A -> M B) (w w' : world) (b : B) :
  bind m k w = (Ok b, w') ->
  exists a w1, m w = (Ok a, w1) /\ k a w1 = (Ok b, w').
Proof.
  unfold bind. destruct (m w) as [[a | e |] w1] eqn:E; intros H;
    try discriminate.
  exists a, w1. split; [reflexivity | exact H].
Qed.






Lemma last_assignment_app (i : nat) (front : list progress_entry)
      (entry : progress_entry) :
  last_assignment i (front ++ [entry])
  = Some (entry_at entry (i + 1), entry_at entry (i + 5)).
Proof.
  unfold last_assignment. rewrite fold_left_app. reflexivity.
Qed.


(** The percentage never fails: the division is guarded. *)
Lemma percentage_progress_total (goal_value actual_value : option Q) :
  exists p, percentage_progress goal_value actual_value = Ok p.
Proof.
  unfold percentage_progress, div.
  destruct goal_value as [g |]; [| eexists; reflexivity].
  destruct (nonzero g); [| eexists; reflexivity].
  destruct actual_value; eexists; reflexivity.
Qed.

(** ** Metric calculator *)

Lemma lower_idempotent (s : string) : lower (lower s) = lower s.
Proof.
  induction s as [| c s IH]; [reflexivity |]. simpl. rewrite IH. f_equal.
  unfold lower_ascii.
  destruct ((65 <=? nat_of_ascii c)%nat && (nat_of_ascii c <=? 90)%nat) eqn:E.
  - apply andb_true_iff in E. destruct E as [E1 E2].
    apply Nat.leb_le in E1. apply Nat.leb_le in E2.
    rewrite nat_ascii_embedding by lia.
    replace ((65 <=? nat_of_ascii c + 32)%nat
             && (nat_of_ascii c + 32 <=? 90)%nat) with false; [reflexivity |].
    symmetry. apply andb_false_iff. right. apply Nat.leb_gt. lia.
  - rewrite E. reflexivity.
Qed.

(** The comparison of [calculate_bmr] ignores case. *)
Lemma calculate_bmr_female_any_case (gender : string) (w h a : Q) :
  lower gender = "female" ->
  calculate_bmr gender w h a
  = Ok (Some (655.1 + 9.563 * w + 1.850 * h - 4.676 * a)).
Proof. intros H. unfold calculate_bmr. rewrite H. reflexivity. Qed.

Lemma calculate_bmr_male_any_case (gender : string) (w h a : Q) :
  lower gender = "male" ->
  calculate_bmr gender w h a
  = Ok (Some (66.47 + 13.75 * w + 5.003 * h - 6.755 * a)).
Proof. intros H. unfold calculate_bmr. rewrite H. reflexivity. Qed.

(** C4.  For every weight [w], height [h] and age [a],
    [calculate_bmr] returns [655.1 + 9.563*w + 1.850*h - 4.676*a]
    for ['female'] and [66.47 + 13.75*w + 5.003*h - 6.755*a] for
    ['male']; at [("female", 60, 165, 30)] it returns
    [655.1 + 9.563*60 + 1.850*165 - 4.676*30], which is 1393.85. *)
Theorem calculate_bmr_formula (w h a : Q) :
  calculate_bmr "female" w h a
  = Ok (Some (655.1 + 9.563 * w + 1.850 * h - 4.676 * a))
  /\ calculate_bmr "male" w h a
     = Ok (Some (66.47 + 13.75 * w + 5.003 * h - 6.755 * a))
  /\ calculate_bmr "female" 60 165 30
     = Ok (Some (655.1 + 9.563 * 60 + 1.850 * 165 - 4.676 * 30))
  /\ 655.1 + 9.563 * 60 + 1.850 * 165 - 4.676 * 30 == 1393.85.
Proof.
  repeat split.
Qed.

(** C5, as the code has it.  For every gender string that is neither
    ['female'] nor ['male'] once lowered, and any weight, height and
    age, [calculate_bmr] returns [None]: it returns no number and
    raises nothing. *)
Theorem calculate_bmr_other_gender (gender : string) (w h a : Q) :
  lower gender <> "female" ->
  lower gender <> "male" ->
  calculate_bmr gender w h a = Ok None.
Proof.
  intros Hf Hm. unfold calculate_bmr.
  apply String.eqb_neq in Hf. apply String.eqb_neq in Hm.
  rewrite Hf, Hm. reflexivity.
Qed.

(** C5, as the claim has it, fails: on the gender ['other'] the
    function returns [None] and raises no exception. *)
Lemma calculate_bmr_does_not_raise :
  calculate_bmr "other" 60 165 30 = Ok None
  /\ ~ (exists e, calculate_bmr "other" 60 165 30 = Raise e).
Proof.
  split; [reflexivity |]. intros [e H]. discriminate H.
Qed.

(** ** Registration *)

Lemma input_same_db (w w' : world) (r : outcome string) :
  input w = (r, w') -> same_db w w'.
Proof.
  unfold input. destruct (stdin w) as [| [s |] rest]; intros H;
    inversion H; subst; split; reflexivity.
Qed.

Lemma on_stdin_same_db {A} (f : list event -> outcome A * list event)
      (w w' : world) (r : outcome A) :
  on_stdin f w = (r, w') -> same_db w w'.
Proof.
  unfold on_stdin. destruct (f (stdin w)) as [r0 rest]. intros H.
  inversion H; subst. split; reflexivity.
Qed.

Lemma float_input_same_db (w w' : world) (r : outcome Q) :
  float_input w = (r, w') -> same_db w w'.
Proof.
  unfold float_input, bind. destruct (input w) as [[s | e |] w1] eqn:E;
    intros H; apply input_same_db in E.
  - destruct (float_of_string s); inversion H; subst; exact E.
  - inversion H; subst; exact E.
  - inversion H; subst; exact E.
Qed.

Lemma query_inv {A} (f : database -> A) (w w' : world) (r : outcome A) :
  query f w = (r, w') -> r = Ok (f (working w)) /\ w' = w.
Proof. unfold query. intros H. inversion H. split; reflexivity. Qed.

Lemma lift_inv {A} (r r' : outcome A) (w w' : world) :
  lift r w = (r', w') -> r' = r /\ w' = w.
Proof. unfold lift. intros H. inversion H. split; reflexivity. Qed.

Lemma input_until_accepted {A} (accept : string -> option A)
      (ins rest : list event) (a : A) :
  input_until accept ins = (Ok a, rest) -> exists s, accept s = Some a.
Proof.
  induction ins as [| [s |] ins IH]; simpl; intros H; try discriminate.
  destruct (accept s) as [a' |] eqn:E; [| exact (IH H)].
  inversion H; subst. exists s. exact E.
Qed.

Lemma accept_gender_values (s gender : string) :
  accept_gender s = Some gender -> gender = "male" \/ gender = "female".
Proof.
  unfold accept_gender.
  destruct ((lower s =? "male") || (lower s =? "female")) eqn:E;
    intros H; inversion H; subst.
  apply orb_true_iff in E. destruct E as [E | E]; apply String.eqb_eq in E;
    [left | right]; exact E.
Qed.

Lemma select_user_present (username : string) (d : database) :
  In username (map users_username (users d)) ->
  exists u, select_user_by_username username d = Some u.
Proof.
  intros HIn. unfold select_user_by_username.
  destruct (find (fun u => users_username u =? username) (users d)) as [u |]
    eqn:E; [exists u; reflexivity |].
  apply in_map_iff in HIn. destruct HIn as [u [Hu HIn]].
  pose proof (find_none _ _ E u HIn) as Hn. simpl in Hn.
  rewrite Hu, String.eqb_refl in Hn. discriminate.
Qed.

Lemma filter_username_absent (username : string) (us : list user_row) :
  ~ In username (map users_username us) ->
  filter (fun u => users_username u =? username) us = [].
Proof.
  induction us as [| u us IH]; simpl; intros H; [reflexivity |].
  destruct (users_username u =? username) eqn:E.
  - apply String.eqb_eq in E. exfalso. apply H. left. exact E.
  - apply IH. intros HIn. apply H. right. exact HIn.
Qed.

Lemma unique_username_count (username : string) (us : list user_row) :
  NoDup (map users_username us) ->
  In username (map users_username us) ->
  List.length (filter (fun u => users_username u =? username) us) = 1%nat.
Proof.
  induction us as [| u us IH]; simpl; intros Hnd HIn; [contradiction |].
  inversion Hnd as [| x l Hx Hl]; subst.
  destruct (users_username u =? username) eqn:E.
  - apply String.eqb_eq in E. rewrite E in Hx.
    rewrite (filter_username_absent username us Hx). reflexivity.
  - destruct HIn as [HIn | HIn].
    + rewrite HIn, String.eqb_refl in E. discriminate.
    + apply IH; assumption.
Qed.

(** [UNIQUE(username)] survives every insertion the store accepts. *)
Lemma insert_user_keeps_unique (username password : string) (age : Q)
      (gender : string) (weight height : Q) (fitness_goal : string)
      (bmr : option Q) (w w' : world) (id : Z) :
  NoDup (map users_username (users (working w))) ->
  insert_user username password age gender weight height fitness_goal bmr w
  = (Ok id, w') ->
  NoDup (map users_username (users (working w'))).
Proof.
  intros Hnd. unfold insert_user.
  destruct (existsb (fun u => users_username u =? username)
                    (users (working w))) eqn:E; intros H; [discriminate H |].
  inversion H; subst; clear H. simpl. rewrite map_app. simpl.
  assert (Hfresh : ~ In username (map users_username (users (working w)))).
  { intros HIn. apply in_map_iff in HIn. destruct HIn as [u [Hu HIn]].
    assert (Ht : existsb (fun u => users_username u =? username)
                         (users (working w)) = true).
    { apply existsb_exists. exists u. split; [exact HIn |].
      rewrite Hu. apply String.eqb_refl. }
    congruence. }
  revert Hnd Hfresh.
  induction (map users_username (users (working w))) as [| x l IH]; simpl;
    intros Hnd Hfresh.
  - constructor; [intros [] | constructor].
  - inversion Hnd as [| y l' Hx Hl]; subst. constructor.
    + intros HIn. apply in_app_or in HIn. destruct HIn as [HIn | [HIn | []]].
      * exact (Hx HIn).
      * apply Hfresh. left. symmetry. exact HIn.
    + apply IH; [exact Hl |]. intros HIn. apply Hfresh. right. exact HIn.
Qed.

(** C8.  In a store that already holds a user row with username [u]
    (and respects [UNIQUE(username)]), registering with username [u]
    returns [None], leaves the whole store as it was (no user row and
    no goal row is inserted) and leaves exactly one user row with
    username [u]. *)
Theorem register_duplicate_username (username : string) (rest : list event)
        (d : database) :
  NoDup (map users_username (users d)) ->
  In username (map users_username (users d)) ->
  exists w',
    register (start (Line username :: rest) d) = (Ok None, w')
    /\ committed w' = d
    /\ username_count username (committed w') = 1%nat.
Proof.
  intros Hnd HIn.
  destruct (select_user_present username d HIn) as [u Hu].
  exists (mk_world rest d d).
  split; [| split].
  - unfold register, try_except, with_connection, start, bind, input, query.
    simpl. rewrite Hu. reflexivity.
  - reflexivity.
  - apply unique_username_count; assumption.
Qed.


(** ** Routine entry *)

Lemma keeps_committed_weaken {A} (m : M A) :
  keeps_committed m -> publishes_only_on_success m.
Proof. intros H w r w' E _. exact (H w r w' E). Qed.

Lemma keeps_committed_same_db {A} (m : M A) :
  (forall w r w', m w = (r, w') -> same_db w w') -> keeps_committed m.
Proof. intros H w r w' E. exact (proj1 (H w r w' E)). Qed.

Lemma keeps_committed_ret {A} (a : A) : keeps_committed (ret a).
Proof. intros w r w' E. inversion E. reflexivity. Qed.

Lemma keeps_committed_diverged {A} : keeps_committed (@diverged A).
Proof. intros w r w' E. inversion E. reflexivity. Qed.

Lemma keeps_committed_input : keeps_committed input.
Proof. apply keeps_committed_same_db. intros w r w'. apply input_same_db. Qed.

Lemma keeps_committed_get_float_input : keeps_committed get_float_input.
Proof.
  apply keeps_committed_same_db. intros w r w'. apply on_stdin_same_db.
Qed.

Lemma keeps_committed_query {A} (f : database -> A) : keeps_committed (query f).
Proof. intros w r w' E. apply query_inv in E. destruct E as [_ ->]. reflexivity. Qed.

Lemma keeps_committed_execute (f : database -> database) :
  keeps_committed (execute f).
Proof. intros w r w' E. inversion E. reflexivity. Qed.

Lemma keeps_committed_pending_events : keeps_committed pending_events.
Proof. intros w r w' E. inversion E. reflexivity. Qed.

Lemma keeps_committed_bind {A B} (m : M A) (k : A -> M B) :
  keeps_committed m -> (forall a, keeps_committed (k a)) ->
  keeps_committed (bind m k).
Proof.
  intros Hm Hk w r w'. unfold bind.
  destruct (m w) as [[a | e |] w1] eqn:E; intros H.
  - rewrite (Hk a w1 r w' H). exact (Hm _ _ _ E).
  - inversion H; subst. exact (Hm _ _ _ E).
  - inversion H; subst. exact (Hm _ _ _ E).
Qed.

Lemma publishes_bind {A B} (m : M A) (k : A -> M B) :
  keeps_committed m -> (forall a, publishes_only_on_success (k a)) ->
  publishes_only_on_success (bind m k).
Proof.
  intros Hm Hk w r w'. unfold bind.
  destruct (m w) as [[a | e |] w1] eqn:E; intros H Hr.
  - rewrite (Hk a w1 r w' H Hr). exact (Hm _ _ _ E).
  - inversion H; subst. exact (Hm _ _ _ E).
  - inversion H; subst. exact (Hm _ _ _ E).
Qed.

Lemma publishes_commit : publishes_only_on_success commit.
Proof.
  intros w r w' E Hr. unfold commit in E. inversion E; subst.
  exfalso. exact (Hr tt eq_refl).
Qed.

Create HintDb committed.
#[local] Hint Resolve keeps_committed_ret keeps_committed_diverged
  keeps_committed_input keeps_committed_get_float_input keeps_committed_query
  keeps_committed_execute keeps_committed_pending_events : committed.

Ltac keeps_committed_steps :=
  repeat (apply keeps_committed_bind; [auto with committed | intros ?]);
  auto with committed.

Lemma keeps_committed_routine_sets (n : nat) :
  forall set_number user_id routine_name exercise_name exercise_list,
    keeps_committed (routine_sets n set_number user_id routine_name
                                  exercise_name exercise_list).
Proof.
  induction n as [| n IH]; intros; simpl; keeps_committed_steps.
Qed.

Lemma keeps_committed_routine_entries (fuel : nat) :
  forall user_id routine_name exercise_list,
    keeps_committed (routine_entries fuel user_id routine_name exercise_list).
Proof.
  induction fuel as [| fuel IH]; intros; simpl; [auto with committed |].
  apply keeps_committed_bind; [auto with committed | intros exercise_name].
  destruct (lower exercise_name =? "end"); [auto with committed |].
  apply keeps_committed_bind; [auto with committed | intros sets].
  destruct (Qlt_le_dec 0 sets).
  - apply keeps_committed_bind; [apply keeps_committed_routine_sets |].
    intros. apply IH.
  - keeps_committed_steps.
Qed.

(** Whatever stops the [try] block before its [commit], the committed
    store is the one it started from. *)
Lemma routine_attempt_publishes (user_id : Z) :
  publishes_only_on_success (routine_attempt user_id).
Proof.
  unfold routine_attempt.
  apply publishes_bind; [auto with committed | intros routine_name].
  apply publishes_bind; [auto with committed | intros existing].
  apply publishes_bind.
  { destruct existing; keeps_committed_steps. }
  intros _.
  apply publishes_bind; [auto with committed | intros fuel].
  apply publishes_bind; [apply keeps_committed_routine_entries |].
  intros exercise_list.
  apply publishes_bind; [auto with committed | intros _].
  apply publishes_bind; [auto with committed | intros _].
  apply publishes_commit.
Qed.

(** *** The loop bound is never reached *)

Lemma input_until_length {A} (accept : string -> option A) (ins : list event) :
  (List.length (snd (input_until accept ins)) <= List.length ins)%nat.
Proof.
  induction ins as [| [s |] ins IH]; simpl; try lia.
  destruct (accept s); simpl; lia.
Qed.

Lemma consumes_get_float_input : consumes get_float_input.
Proof.
  intros w r w'. unfold get_float_input, on_stdin.
  pose proof (input_until_length float_of_string (stdin w)) as H.
  destruct (input_until float_of_string (stdin w)) as [r0 rest].
  intros E. inversion E; subst. exact H.
Qed.

Lemma consumes_ret {A} (a : A) : consumes (ret a).
Proof. intros w r w' E. inversion E; subst. lia. Qed.

Lemma consumes_bind {A B} (m : M A) (k : A -> M B) :
  consumes m -> (forall a, consumes (k a)) -> consumes (bind m k).
Proof.
  intros Hm Hk w r w'. unfold bind.
  destruct (m w) as [[a | e |] w1] eqn:E; intros H.
  - pose proof (Hm _ _ _ E). pose proof (Hk a _ _ _ H). lia.
  - inversion H; subst. exact (Hm _ _ _ E).
  - inversion H; subst. exact (Hm _ _ _ E).
Qed.

Lemma consumes_routine_sets (n : nat) :
  forall set_number user_id routine_name exercise_name exercise_list,
    consumes (routine_sets n set_number user_id routine_name exercise_name
                           exercise_list).
Proof.
  induction n as [| n IH]; intros; simpl; [apply consumes_ret |].
  repeat (apply consumes_bind; [apply consumes_get_float_input | intros ?]).
  apply IH.
Qed.

Lemma input_ok_length (w w' : world) (s : string) :
  input w = (Ok s, w') -> S (List.length (stdin w')) = List.length (stdin w).
Proof.
  unfold input. destruct (stdin w) as [| [s0 |] rest]; intros H;
    inversion H; subst; reflexivity.
Qed.

Lemma get_float_input_never_diverges (w : world) :
  fst (get_float_input w) <> Diverged.
Proof.
  unfold get_float_input, on_stdin.
  destruct (input_until float_of_string (stdin w)) as [r rest] eqn:E. simpl.
  intros ->. revert rest E.
  induction (stdin w) as [| [s |] ins IH]; simpl; intros rest E;
    try discriminate.
  destruct (float_of_string s); [discriminate | exact (IH _ E)].
Qed.

(** One [get_float_input] in front of a computation that ends. *)
Lemma bind_get_float_input_never_diverges {B} (k : Q -> M B) (w : world) :
  (forall x w1, get_float_input w = (Ok x, w1) -> fst (k x w1) <> Diverged) ->
  fst (bind get_float_input k w) <> Diverged.
Proof.
  intros Hk. unfold bind.
  pose proof (get_float_input_never_diverges w) as Hg.
  destruct (get_float_input w) as [[x | e |] w1]; simpl in *.
  - apply Hk. reflexivity.
  - discriminate.
  - congruence.
Qed.

Lemma routine_sets_never_diverges (n : nat) :
  forall set_number user_id routine_name exercise_name exercise_list w,
    fst (routine_sets n set_number user_id routine_name exercise_name
                      exercise_list w) <> Diverged.
Proof.
  induction n as [| n IH]; intros; simpl; [discriminate |].
  repeat (apply bind_get_float_input_never_diverges; intros ? ? _).
  apply IH.
Qed.

Lemma routine_entries_never_diverges (fuel : nat) :
  forall user_id routine_name exercise_list w,
    (List.length (stdin w) < fuel)%nat ->
    fst (routine_entries fuel user_id routine_name exercise_list w)
    <> Diverged.
Proof.
  induction fuel as [| fuel IH]; intros user_id routine_name exercise_list w Hlen;
    [lia |].
  simpl. unfold bind at 1.
  destruct (input w) as [[exercise_name | e |] w1] eqn:E1; simpl;
    try discriminate.
  2: { unfold input in E1. destruct (stdin w) as [| [s |] rest]; discriminate. }
  apply input_ok_length in E1.
  destruct (lower exercise_name =? "end"); [discriminate |].
  apply bind_get_float_input_never_diverges. intros sets w2 E2.
  apply consumes_get_float_input in E2.
  destruct (Qlt_le_dec 0 sets).
  - unfold bind at 1.
    match goal with
    | |- context [routine_sets ?n ?a ?b ?c ?d ?l w2] =>
        pose proof (routine_sets_never_diverges n a b c d l w2) as Hs;
        destruct (routine_sets n a b c d l w2) as [[l' | e |] w3] eqn:E3
    end; simpl in *; try discriminate; try congruence.
    apply consumes_routine_sets in E3. apply IH. lia.
  - apply bind_get_float_input_never_diverges. intros reps w3 E3.
    apply consumes_get_float_input in E3.
    apply bind_get_float_input_never_diverges. intros weight w4 E4.
    apply consumes_get_float_input in E4.
    apply bind_get_float_input_never_diverges. intros duration w5 E5.
    apply consumes_get_float_input in E5.
    apply bind_get_float_input_never_diverges. intros distance w6 E6.
    apply consumes_get_float_input in E6.
    apply IH. lia.
Qed.

(** [create_routine] always ends: with a return or with an exception. *)
Lemma routine_attempt_never_diverges (user_id : Z) (w : world) :
  fst (routine_attempt user_id w) <> Diverged.
Proof.
  unfold routine_attempt. unfold bind at 1.
  destruct (input w) as [[routine_name | e |] w1] eqn:E1; simpl;
    try discriminate.
  2: { unfold input in E1. destruct (stdin w) as [| [s |] rest]; discriminate. }
  unfold bind at 1. unfold query at 1. unfold bind at 1.
  assert (Hpre : forall w0 : world,
             fst ((match select_routine user_id routine_name (working w1) with
                   | Some _ => input ;;; ret tt
                   | None => ret tt
                   end) w0) <> Diverged).
  { intros w0. destruct (select_routine user_id routine_name (working w1));
      [| discriminate].
    unfold bind, input. destruct (stdin w0) as [| [s |] rest]; discriminate. }
  specialize (Hpre w1).
  destruct ((match select_routine user_id routine_name (working w1) with
             | Some _ => input ;;; ret tt
             | None => ret tt
             end) w1) as [[[] | e |] w2]; simpl in *;
    try discriminate; try congruence.
  unfold bind at 1, pending_events.
  unfold bind at 1.
  pose proof (routine_entries_never_diverges
                (S (List.length (stdin w2))) user_id routine_name [] w2
                (Nat.lt_succ_diag_r _)) as Hl.
  destruct (routine_entries (S (List.length (stdin w2))) user_id routine_name
                            [] w2) as [[exercise_list | e |] w3];
    simpl in *; try discriminate; try congruence.
  unfold bind at 1, execute at 1. unfold bind at 1.
  match goal with
  | |- context [input ?w0] =>
      destruct (input w0) as [[s | e |] w4] eqn:E4;
      [| | unfold input in E4;
           destruct (stdin w0) as [| [s |] rest]; discriminate]
  end; simpl; discriminate.
Qed.


(** ** Goal and weight updates *)

Lemma set_target_other_columns (a : goal_attribute) (v : option Q)
      (g : goal_row) :
  goals_id (set_target a v g) = goals_id g
  /\ goals_user_id (set_target a v g) = goals_user_id g
  /\ goals_daily_calorie_goal (set_target a v g) = goals_daily_calorie_goal g
  /\ goals_exercise_name (set_target a v g) = goals_exercise_name g
  /\ target a (set_target a v g) = v
  /\ forall b, b <> a -> target b (set_target a v g) = target b g.
Proof.
  destruct a; simpl; repeat split; intros b Hb; destruct b;
    try reflexivity; contradiction.
Qed.

(** The [UPDATE] of option 2 rewrites the column in every goal row of
    the user and exercise, whether or not the column was set there,
    and leaves the rows of other users and exercises alone. *)
Lemma update_goal_target_rows (user_id : Z) (exercise_name : string)
      (a : goal_attribute) (target_value : Q) (d : database) :
  goals (update_goal_target user_id exercise_name a target_value d)
  = map (fun g => if goal_of user_id exercise_name g
                  then set_target a (Some target_value) g else g) (goals d)
  /\ users (update_goal_target user_id exercise_name a target_value d)
     = users d.
Proof. split; reflexivity. Qed.

(** The [UPDATE]s of option 1 never write the [bmr] column. *)
Lemma update_weight_keeps_bmr (user_id : Z) (new_weight : Q) (v : option Q)
      (d : database) :
  map users_bmr
      (users (update_daily_calorie_goal user_id v
                (update_user_weight user_id new_weight d)))
  = map users_bmr (users d).
Proof.
  simpl. rewrite map_map. apply map_ext. intros u.
  destruct (users_id u =? user_id)%Z; reflexivity.
Qed.

(** ** Methods as transactions *)

Lemma read_only_keeps_committed {A} (m : M A) :
  read_only m -> keeps_committed m.
Proof. intros H w r w' E. exact (proj1 (H w r w' E)). Qed.

Lemma read_only_silent {A} (quiet : outcome A -> Prop) (m : M A) :
  read_only m -> silent_when quiet m.
Proof. intros H w r w' E _. exact (H w r w' E). Qed.

Lemma read_only_ret {A} (a : A) : read_only (ret a).
Proof. intros w r w' E. inversion E. split; reflexivity. Qed.

Lemma read_only_raise {A} (e : exn) : read_only (@raise A e).
Proof. intros w r w' E. inversion E. split; reflexivity. Qed.

Lemma read_only_lift {A} (r0 : outcome A) : read_only (lift r0).
Proof. intros w r w' E. inversion E. split; reflexivity. Qed.

Lemma read_only_input : read_only input.
Proof. intros w r w'. apply input_same_db. Qed.

Lemma read_only_on_stdin {A} (f : list event -> outcome A * list event) :
  read_only (on_stdin f).
Proof. intros w r w'. apply on_stdin_same_db. Qed.

Lemma read_only_get_float_input : read_only get_float_input.
Proof. apply read_only_on_stdin. Qed.

Lemma read_only_float_input : read_only float_input.
Proof. intros w r w'. apply float_input_same_db. Qed.

Lemma read_only_query {A} (f : database -> A) : read_only (query f).
Proof.
  intros w r w' E. apply query_inv in E. destruct E as [_ ->].
  split; reflexivity.
Qed.

Lemma read_only_first_column {A} (row : option A) : read_only (first_column row).
Proof.
  destruct row; [apply read_only_ret | apply read_only_raise].
Qed.

Lemma read_only_bind {A B} (m : M A) (k : A -> M B) :
  read_only m -> (forall a, read_only (k a)) -> read_only (bind m k).
Proof.
  intros Hm Hk w r w'. unfold bind.
  destruct (m w) as [[a | e |] w1] eqn:E; intros H.
  - destruct (Hm _ _ _ E) as [H1 H2]. destruct (Hk a _ _ _ H) as [H3 H4].
    split; congruence.
  - inversion H; subst. exact (Hm _ _ _ E).
  - inversion H; subst. exact (Hm _ _ _ E).
Qed.

Lemma silent_bind {A B} (quiet : outcome B -> Prop) (m : M A) (k : A -> M B) :
  read_only m -> (forall a, silent_when quiet (k a)) ->
  silent_when quiet (bind m k).
Proof.
  intros Hm Hk w r w'. unfold bind.
  destruct (m w) as [[a | e |] w1] eqn:E; intros H Hq.
  - destruct (Hm _ _ _ E) as [H1 H2]. destruct (Hk a _ _ _ H Hq) as [H3 H4].
    split; congruence.
  - inversion H; subst. exact (Hm _ _ _ E).
  - inversion H; subst. exact (Hm _ _ _ E).
Qed.

#[local] Hint Resolve read_only_ret read_only_raise read_only_lift
  read_only_input read_only_on_stdin read_only_get_float_input
  read_only_float_input read_only_query read_only_first_column : committed.

Ltac read_only_steps :=
  repeat (apply read_only_bind; [solve [auto with committed] | intros ?]);
  auto with committed.

(** A block whose body wrote nothing commits nothing. *)
Lemma with_connection_silent {A} (quiet : outcome A -> Prop) (body : M A)
      (w w' : world) (r : outcome A) :
  silent_when quiet body ->
  with_connection body w = (r, w') -> quiet r ->
  committed w' = committed w /\ working w' = committed w.
Proof.
  intros Hb. unfold with_connection.
  destruct (body (mk_world (stdin w) (committed w) (committed w)))
    as [[a | e |] w1] eqn:E; intros H Hq; inversion H; subst; clear H;
    destruct (Hb _ _ _ E Hq) as [H1 H2]; simpl in *; split; congruence.
Qed.

(** A block that raises rolls back to the store as committed when it
    raised. *)
Lemma with_connection_publishes {A} (body : M A) :
  publishes_only_on_success body ->
  forall w r w',
    with_connection body w = (r, w') -> (forall a, r <> Ok a) ->
    committed w' = committed w /\ (r <> Diverged -> working w' = committed w).
Proof.
  intros Hb w r w'. unfold with_connection.
  destruct (body (mk_world (stdin w) (committed w) (committed w)))
    as [[a | e |] w1] eqn:E; intros H Hr; inversion H; subst; clear H.
  - exfalso. exact (Hr a eq_refl).
  - pose proof (Hb _ _ _ E Hr) as Hc. simpl in *. split; [exact Hc |].
    intros _. exact Hc.
  - pose proof (Hb _ _ _ E Hr) as Hc. simpl in *. split; [exact Hc |].
    intros Hd. contradiction.
Qed.

(** The handler [except sqlite3.Error: conn.rollback(); raise] keeps
    the outcome and the committed store. *)
Lemma try_rollback_raise {A} (m : M A) (w w' : world) (r : outcome A) :
  try_except m is_sqlite_error (fun e => rollback ;;; raise e) w = (r, w') ->
  exists w1, m w = (r, w1) /\ committed w' = committed w1
             /\ (working w' = working w1 \/ working w' = committed w1).
Proof.
  unfold try_except. destruct (m w) as [[a | e |] w1] eqn:E; intros H.
  - inversion H; subst. exists w'. auto.
  - destruct (is_sqlite_error e).
    + unfold bind, rollback, raise in H. inversion H; subst.
      eexists. split; [reflexivity |]. simpl. auto.
    + inversion H; subst. exists w'. auto.
  - inversion H; subst. exists w'. auto.
Qed.

(** The handler [except sqlite3.Error: raise] changes nothing. *)
Lemma try_raise_run {A} (m : M A) (w : world) :
  try_except m is_sqlite_error (fun e => raise e) w = m w.
Proof.
  unfold try_except, raise. destruct (m w) as [[a | e |] w1]; try reflexivity.
  destruct (is_sqlite_error e); reflexivity.
Qed.

Lemma input_ok_inv (w w' : world) (s : string) :
  input w = (Ok s, w') ->
  stdin w = Line s :: stdin w' /\ same_db w w'.
Proof.
  unfold input. destruct (stdin w) as [| [s0 |] rest] eqn:E; intros H;
    inversion H; subst. simpl. split; [reflexivity | split; reflexivity].
Qed.

Lemma accept_fitness_goal_values (s fitness_goal : string) :
  accept_fitness_goal s = Some fitness_goal ->
  fitness_goal = "lose" \/ fitness_goal = "gain" \/ fitness_goal = "maintain".
Proof.
  unfold accept_fitness_goal.
  destruct ((lower s =? "lose") || (lower s =? "gain")
            || (lower s =? "maintain")) eqn:E; intros H; inversion H; subst.
  apply orb_true_iff in E. destruct E as [E | E].
  - apply orb_true_iff in E. destruct E as [E | E]; apply String.eqb_eq in E;
      auto.
  - apply String.eqb_eq in E. auto.
Qed.

Lemma on_stdin_ok_inv {A} (accept : string -> option A) (w w' : world) (a : A) :
  on_stdin (input_until accept) w = (Ok a, w') ->
  (exists s, accept s = Some a) /\ same_db w w'.
Proof.
  intros H. split; [| exact (on_stdin_same_db _ _ _ _ H)].
  unfold on_stdin in H.
  destruct (input_until accept (stdin w)) as [r rest] eqn:E.
  inversion H; subst. exact (input_until_accepted _ _ _ _ E).
Qed.

(** ** Registration and login *)

(** The shape of a registration that succeeds. *)
Lemma register_success_shape (ins : list event) (d : database) (user_id : Z)
      (w' : world) :
  register (start ins d) = (Ok (Some user_id), w') ->
  exists username password rest age gender weight height fitness_goal bmr goal,
    ins = Line username :: Line password :: rest
    /\ select_user_by_username username d = None
    /\ (gender = "male" \/ gender = "female")
    /\ (fitness_goal = "lose" \/ fitness_goal = "gain"
        \/ fitness_goal = "maintain")
    /\ calculate_bmr gender weight height age = Ok (Some bmr)
    /\ calculate_goal_calories (Some bmr) fitness_goal = Ok goal
    /\ user_id = (users_seq d + 1)%Z
    /\ committed w'
       = insert_calorie_goal user_id goal
           (set_users (users d ++ [mk_user user_id username password age gender
                                           weight height fitness_goal
                                           (Some bmr)])
                      user_id d).
Proof.
  intros H. apply try_rollback_raise in H. destruct H as (w1 & H & Hc & _).
  unfold with_connection, start in H. simpl in H.
  match type of H with
  | context [bind input ?k ?w] =>
      destruct (bind input k w) as [[r | e |] w2] eqn:E
  end; try discriminate H.
  inversion H; subst r w1; clear H. simpl in Hc.
  apply bind_ok in E. destruct E as (username & v1 & E1 & E).
  apply input_ok_inv in E1. destruct E1 as [I1 S1]. simpl in I1.
  apply bind_ok in E. destruct E as (existing & v2 & E2 & E).
  apply query_inv in E2. destruct E2 as [E2 ->]. inversion E2; subst; clear E2.
  destruct (select_user_by_username username (working v1)) eqn:Hsel;
    [discriminate E |].
  apply bind_ok in E. destruct E as (password & v3 & E3 & E).
  apply input_ok_inv in E3. destruct E3 as [I3 S3].
  apply bind_ok in E. destruct E as (age & v4 & E4 & E).
  apply float_input_same_db in E4.
  apply bind_ok in E. destruct E as (gender & v5 & E5 & E).
  apply on_stdin_ok_inv in E5. destruct E5 as [[sg Hg] S5].
  apply bind_ok in E. destruct E as (weight & v6 & E6 & E).
  apply float_input_same_db in E6.
  apply bind_ok in E. destruct E as (height & v7 & E7 & E).
  apply float_input_same_db in E7.
  apply bind_ok in E. destruct E as (fitness_goal & v8 & E8 & E).
  apply on_stdin_ok_inv in E8. destruct E8 as [[sf Hf] S8].
  apply bind_ok in E. destruct E as (bmr & v9 & E9 & E).
  apply lift_inv in E9. destruct E9 as [E9 ->].
  apply bind_ok in E. destruct E as (goal & v9 & E10 & E).
  apply lift_inv in E10. destruct E10 as [E10 ->].
  apply bind_ok in E. destruct E as (uid & v9 & E11 & E).
  apply bind_ok in E. destruct E as ([] & v10 & E12 & E).
  unfold ret in E. inversion E; subst uid w2; clear E.
  assert (Hdb : working v8 = d /\ working v1 = d).
  { unfold same_db in *. simpl in *.
    destruct S1, S3, E4, S5, E6, E7, S8. split; congruence. }
  destruct Hdb as [Hdb Hdb1]. rewrite Hdb1 in Hsel.
  unfold insert_user in E11. rewrite Hdb in E11.
  destruct (existsb (fun u => users_username u =? username) (users d));
    [discriminate E11 |].
  inversion E11; subst; clear E11.
  unfold execute in E12. inversion E12; subst; clear E12.
  destruct bmr as [b |]; [| discriminate E10].
  exists username, password, (stdin v3), age, gender, weight, height,
    fitness_goal, b, goal.
  split; [try rewrite I1; rewrite I3; reflexivity |].
  split; [exact Hsel |].
  split; [exact (accept_gender_values _ _ Hg) |].
  split; [exact (accept_fitness_goal_values _ _ Hf) |].
  split; [symmetry; exact E9 |].
  split; [symmetry; exact E10 |].
  split; [reflexivity |].
  rewrite Hc. reflexivity.
Qed.

Lemma NoDup_snoc {A} (l : list A) (x : A) :
  NoDup l -> ~ In x l -> NoDup (l ++ [x]).
Proof.
  induction l as [| y l IH]; simpl; intros Hnd Hx.
  - constructor; [intros [] | constructor].
  - inversion Hnd as [| z l' Hy Hl]; subst. constructor.
    + intros HIn. apply in_app_or in HIn. destruct HIn as [HIn | [HIn | []]].
      * exact (Hy HIn).
      * apply Hx. left. symmetry. exact HIn.
    + apply IH; [exact Hl |]. intros HIn. apply Hx. right. exact HIn.
Qed.

Lemma select_user_absent (username : string) (d : database) :
  select_user_by_username username d = None ->
  ~ In username (map users_username (users d)).
Proof.
  intros Hsel HIn. destruct (select_user_present username d HIn) as [u Hu].
  congruence.
Qed.

(** The tail of [register] from the first [INSERT] on. *)
Lemma register_inserts_silent (username password : string) (age : Q)
      (gender : string) (weight height : Q) (fitness_goal : string)
      (bmr : option Q) (goal : Q) :
  silent_when (fun r => forall id : Z, r <> Ok (Some id))
    (user_id <- insert_user username password age gender weight height
                            fitness_goal bmr ;;
     execute (insert_calorie_goal user_id goal) ;;;
     ret (Some user_id)).
Proof.
  intros w r w' E Hq. unfold bind, insert_user, execute, ret in E.
  destruct (existsb (fun u => users_username u =? username)
                    (users (working w))).
  - inversion E; subst. split; reflexivity.
  - inversion E; subst. exfalso. exact (Hq _ eq_refl).
Qed.

(** Without an identifier returned, nothing was written, whatever the
    connection found pending. *)
Lemma register_quiet_store (w : world) (r : outcome (option Z)) (w' : world) :
  register w = (r, w') ->
  (forall id, r <> Ok (Some id)) ->
  committed w' = committed w.
Proof.
  intros H Hq. apply try_rollback_raise in H. destruct H as (w1 & H & Hc & _).
  rewrite Hc.
  refine (proj1 (with_connection_silent
                   (fun r => forall id : Z, r <> Ok (Some id)) _ _ _ _ _ H Hq)).
  apply silent_bind; [auto with committed | intros username].
  apply silent_bind; [auto with committed | intros existing].
  destruct existing; [apply read_only_silent; auto with committed |].
  repeat (apply silent_bind; [solve [auto with committed] | intros ?]).
  apply register_inserts_silent.
Qed.

(** X1.  A registration that does not return an identifier (it returns
    [None] or raises, whatever the reason) leaves the store on disk
    exactly as it was. *)
Theorem register_failure_keeps_store (ins : list event) (d : database)
        (r : outcome (option Z)) (w' : world) :
  register (start ins d) = (r, w') ->
  (forall id, r <> Ok (Some id)) ->
  committed w' = d.
Proof.
  intros H Hq.
  destruct r as [[id |] | e |].
  - exfalso. exact (Hq id eq_refl).
  - exact (register_quiet_store _ _ _ H Hq).
  - exact (register_quiet_store _ _ _ H Hq).
  - exact (register_quiet_store _ _ _ H Hq).
Qed.

(** X2.  [register] keeps [UNIQUE(username)]: whatever is typed, no
    run leaves two user rows with one username. *)
Theorem register_keeps_unique_usernames (ins : list event) (d : database)
        (r : outcome (option Z)) (w' : world) :
  unique_usernames d ->
  register (start ins d) = (r, w') ->
  unique_usernames (committed w').
Proof.
  intros Hu H.
  assert (Hcase : (exists id, r = Ok (Some id)) \/ forall id, r <> Ok (Some id)).
  { destruct r as [[id |] | e |];
      [left; exists id; reflexivity | right .. ]; intros id; discriminate. }
  destruct Hcase as [[id ->] | Hq].
  - apply register_success_shape in H.
    destruct H as (username & password & rest & age & gender & weight & height
                   & fitness_goal & bmr & goal & _ & Hsel & _ & _ & _ & _ & _
                   & Hc).
    rewrite Hc. unfold unique_usernames. simpl. rewrite map_app. simpl.
    apply NoDup_snoc; [exact Hu | exact (select_user_absent _ _ Hsel)].
  - rewrite (register_quiet_store _ _ _ H Hq). exact Hu.
Qed.

(** X3.  The identifier a registration returns is one no user row had
    before, and the identifiers stay within the AUTOINCREMENT counter. *)
Theorem register_fresh_identifier (ins : list event) (d : database)
        (user_id : Z) (w' : world) :
  user_ids_bounded d ->
  register (start ins d) = (Ok (Some user_id), w') ->
  (forall u, In u (users d) -> users_id u <> user_id)
  /\ user_ids_bounded (committed w').
Proof.
  intros Hb H. apply register_success_shape in H.
  destruct H as (username & password & rest & age & gender & weight & height
                 & fitness_goal & bmr & goal & _ & _ & _ & _ & _ & _ & Hid
                 & Hc).
  unfold user_ids_bounded in *. rewrite Forall_forall in Hb. split.
  - intros u HIn E. specialize (Hb u HIn). simpl in Hb. lia.
  - rewrite Hc. simpl. apply Forall_forall. intros u HIn.
    apply in_app_or in HIn. destruct HIn as [HIn | [<- | []]].
    + specialize (Hb u HIn). simpl in Hb. lia.
    + simpl. lia.
Qed.

(** X4.  The age prompt of [register] does not ask again: a line that
    [float] rejects there ends the registration with [ValueError], and
    nothing is stored. *)
Theorem register_non_numeric_age (username password s : string)
        (rest : list event) (d : database) :
  select_user_by_username username d = None ->
  float_of_string s = None ->
  exists w',
    register (start (Line username :: Line password :: Line s :: rest) d)
    = (Raise ValueError, w')
    /\ committed w' = d.
Proof.
  intros Hsel Hs. eexists. split.
  - unfold register, try_except, with_connection, start, bind, input, query,
      float_input. simpl. rewrite Hsel. simpl.
    unfold bind, input. simpl. rewrite Hs. simpl. reflexivity.
  - reflexivity.
Qed.


Lemma find_snoc {A} (f : A -> bool) (l : list A) (x : A) :
  find f (l ++ [x])
  = match find f l with
    | Some y => Some y
    | None => if f x then Some x else None
    end.
Proof.
  induction l as [| y l IH]; simpl; [reflexivity |].
  destruct (f y); [reflexivity | exact IH].
Qed.

Lemma no_credentials_without_username (username password : string)
      (d : database) :
  select_user_by_username username d = None ->
  select_user_by_credentials username password d = None.
Proof.
  unfold select_user_by_username, select_user_by_credentials.
  induction (users d) as [| u us IH]; simpl; [reflexivity |].
  destruct (users_username u =? username); [discriminate | exact IH].
Qed.

(** What [login] does on two typed lines. *)
Lemma login_run (username password : string) (rest : list event)
      (d : database) :
  login (start (Line username :: Line password :: rest) d)
  = (Ok (select_user_by_credentials username password d), mk_world rest d d).
Proof. reflexivity. Qed.

(** X6.  After a registration that succeeds, [login] with the username
    and password typed at registration returns the new user's row, and
    its identifier is the one [register] returned. *)
Theorem login_after_register (username password : string)
        (rest rest' : list event) (d : database) (user_id : Z) (w' : world) :
  register (start (Line username :: Line password :: rest) d)
  = (Ok (Some user_id), w') ->
  exists row w'',
    login (start (Line username :: Line password :: rest') (committed w'))
    = (Ok (Some row), w'')
    /\ users_id row = user_id
    /\ users_username row = username
    /\ committed w'' = committed w'.
Proof.
  intros H. apply register_success_shape in H.
  destruct H as (username0 & password0 & rest0 & age & gender & weight & height
                 & fitness_goal & bmr & goal & Hins & Hsel & _ & _ & _ & _ & _
                 & Hc).
  inversion Hins; subst username0 password0 rest0; clear Hins.
  rewrite login_run.
  assert (Hrow : select_user_by_credentials username password (committed w')
                 = Some (mk_user user_id username password age gender weight
                                 height fitness_goal (Some bmr))).
  { unfold select_user_by_credentials. rewrite Hc. simpl. rewrite find_snoc.
    pose proof (no_credentials_without_username username password d Hsel)
      as Hn.
    unfold select_user_by_credentials in Hn. rewrite Hn. simpl.
    rewrite !String.eqb_refl. reflexivity. }
  rewrite Hrow. eexists. eexists. split; [reflexivity |]. repeat split.
Qed.

(** X7.  [login] never changes the store.  The row it returns is a row
    of the users table whose username and password are the two lines
    typed; it returns [None] only when no row has both. *)
Theorem login_sound (ins : list event) (d : database)
        (r : outcome (option user_row)) (w' : world) :
  login (start ins d) = (r, w') ->
  committed w' = d
  /\ (forall row,
         r = Ok (Some row) ->
         In row (users d)
         /\ exists username password rest,
             ins = Line username :: Line password :: rest
             /\ users_username row = username
             /\ users_password row = password)
  /\ (r = Ok None ->
      exists username password rest,
        ins = Line username :: Line password :: rest
        /\ forall row, In row (users d) ->
                       ~ (users_username row = username
                          /\ users_password row = password)).
Proof.
  destruct ins as [| [username |] [| [password |] rest]];
    try (intros H; inversion H; subst; split; [reflexivity |];
         split; [intros row Hr; discriminate Hr | intros Hr; discriminate Hr]).
  rewrite login_run. intros H. inversion H; subst; clear H.
  split; [reflexivity |]. split.
  - intros row Hr. inversion Hr as [Hf]. unfold select_user_by_credentials in Hf.
    apply find_some in Hf. destruct Hf as [HIn Hm].
    apply andb_true_iff in Hm. destruct Hm as [Hu Hp].
    apply String.eqb_eq in Hu. apply String.eqb_eq in Hp.
    split; [exact HIn |]. exists username, password, rest. auto.
  - intros Hr. inversion Hr as [Hf]. unfold select_user_by_credentials in Hf.
    exists username, password, rest. split; [reflexivity |].
    intros row HIn [Hu Hp]. pose proof (find_none _ _ Hf row HIn) as Hn.
    simpl in Hn. rewrite Hu, Hp, !String.eqb_refl in Hn. discriminate.
Qed.

(** ** The custom-exercise catalog *)

Lemma get_other_exercises_run (user_id : Z) (ins : list event) (d : database) :
  get_other_exercises user_id (start ins d)
  = (Ok (fold_left (fun m row => dict_set (other_name row) (intensities_of row) m)
                   (filter (other_exercise_visible user_id)
                           (other_exercises (seeded user_id d))) []),
     mk_world ins (seeded user_id d) (seeded user_id d)).
Proof. reflexivity. Qed.

Lemma existsb_name_in (name : string) (t : list other_exercise_row) :
  existsb (fun o => other_name o =? name) t = true
  <-> In name (map other_name t).
Proof.
  rewrite existsb_exists, in_map_iff. split.
  - intros [o [HIn E]]. apply String.eqb_eq in E. exists o. auto.
  - intros [o [E HIn]]. exists o. split; [exact HIn |].
    rewrite E. apply String.eqb_refl.
Qed.

(** Offering a list of exercises to the table: the rows it held stay
    in place, each new row is owned by the user and has a name the table
    lacked, every offered name ends up in the table, the other tables
    are untouched, and unique names stay unique. *)
Lemma offer_exercises (user_id : Z) (es : list (string * Q * Q * Q)) :
  forall d,
    let d' := fold_left (fun d' e => insert_or_ignore_other_exercise user_id e d')
                        es d in
    users d' = users d /\ users_seq d' = users_seq d
    /\ exercises d' = exercises d /\ routines d' = routines d
    /\ goals d' = goals d /\ goals_seq d' = goals_seq d
    /\ (exists new,
           other_exercises d' = (other_exercises d ++ new)%list
           /\ Forall (fun o => other_user_id o = Some user_id
                               /\ ~ In (other_name o)
                                       (map other_name (other_exercises d)))
                     new)
    /\ (forall e, In e es ->
                  In (catalog_name e) (map other_name (other_exercises d')))
    /\ (unique_exercise_names d -> unique_exercise_names d').
Proof.
  induction es as [| e es IH]; intros d; simpl.
  - repeat split; try reflexivity.
    + exists []. rewrite app_nil_r. split; [reflexivity | constructor].
    + intros e [].
    + auto.
  - specialize (IH (insert_or_ignore_other_exercise user_id e d)).
    simpl in IH.
    destruct IH as (H1 & H2 & H3 & H4 & H5 & H6 & (new & Hnew & Hall) & Hin
                    & Hu).
    destruct e as [[[name l] m] i].
    assert (Hstep :
              (In name (map other_name (other_exercises d))
               /\ insert_or_ignore_other_exercise user_id (name, l, m, i) d = d)
              \/ (~ In name (map other_name (other_exercises d))
                  /\ insert_or_ignore_other_exercise user_id (name, l, m, i) d
                     = set_other_exercises
                         (other_exercises d
                            ++ [mk_other_exercise (Some user_id) name l m i])
                         d)).
    { unfold insert_or_ignore_other_exercise.
      destruct (existsb (fun o => other_name o =? name) (other_exercises d))
        eqn:E.
      - left. split; [apply existsb_name_in; exact E | reflexivity].
      - right. split; [| reflexivity]. intros HIn.
        apply existsb_name_in in HIn. congruence. }
    destruct Hstep as [[Hpresent Hd] | [Habsent Hd]]; rewrite Hd in *.
    + repeat split; try assumption.
      * exists new. split; assumption.
      * intros e' [<- | HIn']; [| exact (Hin e' HIn')].
        simpl. rewrite Hnew. rewrite map_app. apply in_or_app. left.
        exact Hpresent.
    + simpl in *. repeat split; try assumption.
      * exists (mk_other_exercise (Some user_id) name l m i :: new).
        split.
        { rewrite Hnew. rewrite <- app_assoc. reflexivity. }
        constructor; [simpl; auto |].
        rewrite Forall_forall in *. intros o Ho.
        destruct (Hall o Ho) as [Hown Hfresh]. split; [exact Hown |].
        intros HIn'. apply Hfresh. rewrite map_app. apply in_or_app. left.
        exact HIn'.
      * intros e' [<- | HIn']; [| exact (Hin e' HIn')].
        simpl. rewrite Hnew. rewrite !map_app. apply in_or_app. left.
        apply in_or_app. right. simpl. auto.
      * intros Hnd. apply Hu. unfold unique_exercise_names in *. simpl.
        rewrite map_app. simpl. apply NoDup_snoc; assumption.
Qed.

(** Offering exercises whose names the table already holds changes
    nothing. *)
Lemma offer_present_exercises (user_id : Z) (es : list (string * Q * Q * Q))
      (d : database) :
  (forall e, In e es -> In (catalog_name e) (map other_name (other_exercises d))) ->
  fold_left (fun d' e => insert_or_ignore_other_exercise user_id e d') es d = d.
Proof.
  induction es as [| e es IH]; simpl; intros H; [reflexivity |].
  assert (Hd : insert_or_ignore_other_exercise user_id e d = d).
  { destruct e as [[[name l] m] i]. unfold insert_or_ignore_other_exercise.
    pose proof (H _ (or_introl eq_refl)) as HIn.
    unfold catalog_name in HIn. simpl in HIn.
    apply existsb_name_in in HIn. rewrite HIn. reflexivity. }
  rewrite Hd. apply IH. intros e' HIn. apply H. right. exact HIn.
Qed.

(** X8.  Listing the exercises is idempotent on the store: once any
    user has listed them, a further listing by any user changes nothing
    on disk, and the same user gets the same mapping again. *)
Theorem get_other_exercises_idempotent (user_id other : Z)
        (ins ins' : list event) (d : database) :
  let d1 := store_after (get_other_exercises user_id) ins d in
  store_after (get_other_exercises other) ins' d1 = d1
  /\ result_of (get_other_exercises user_id) ins' d1
     = result_of (get_other_exercises user_id) ins d.
Proof.
  unfold store_after, result_of. rewrite !get_other_exercises_run. simpl.
  assert (Hsame : forall u, seeded u (seeded user_id d) = seeded user_id d).
  { intros u. apply offer_present_exercises.
    pose proof (offer_exercises user_id pregenerated_exercises d) as H.
    simpl in H. destruct H as (_ & _ & _ & _ & _ & _ & _ & Hin & _).
    exact Hin. }
  rewrite !Hsame. split; reflexivity.
Qed.

(** X9.  Listing the exercises never removes or rewrites a row: the
    custom-exercise rows already stored stay in place and in order, the
    rows added are owned by the caller and carry names the table lacked,
    all four catalog names are in the table afterwards, no other table
    changes, and unique names stay unique. *)
Theorem get_other_exercises_keeps_rows (user_id : Z) (ins : list event)
        (d : database) :
  let d' := store_after (get_other_exercises user_id) ins d in
  users d' = users d /\ exercises d' = exercises d
  /\ routines d' = routines d /\ goals d' = goals d
  /\ (exists new,
         other_exercises d' = (other_exercises d ++ new)%list
         /\ Forall (fun o => other_user_id o = Some user_id
                             /\ ~ In (other_name o)
                                     (map other_name (other_exercises d)))
                   new)
  /\ (forall name, In name ["Running"; "Swimming"; "Padel"; "Climbing"] ->
                   In name (map other_name (other_exercises d')))
  /\ (unique_exercise_names d -> unique_exercise_names d').
Proof.
  unfold store_after. rewrite get_other_exercises_run. simpl.
  pose proof (offer_exercises user_id pregenerated_exercises d) as H.
  simpl in H.
  destruct H as (H1 & _ & H3 & H4 & H5 & _ & Hnew & Hin & Hu).
  repeat split; try assumption.
  intros name HIn. simpl in HIn.
  destruct HIn as [<- | [<- | [<- | [<- | []]]]].
  - apply (Hin ("Running", 8, 11, 14)). simpl. auto.
  - apply (Hin ("Swimming", 11, 14, 17)). simpl. auto.
  - apply (Hin ("Padel", 5, 8, 11)). simpl. auto.
  - apply (Hin ("Climbing", 7, 10, 13)). simpl. auto 6.
Qed.

Lemma dict_get_set {V} (k k' : string) (v : V) (m : dict V) :
  dict_get k (dict_set k' v m)
  = if k' =? k then Some v else dict_get k m.
Proof.
  induction m as [| [k0 v0] m IH]; simpl.
  - reflexivity.
  - destruct (k0 =? k') eqn:E.
    + apply String.eqb_eq in E. subst k0. simpl.
      destruct (k' =? k); reflexivity.
    + simpl. destruct (k0 =? k) eqn:E0.
      * destruct (k' =? k) eqn:E1; [| reflexivity].
        apply String.eqb_eq in E0. apply String.eqb_eq in E1.
        subst. rewrite String.eqb_refl in E. discriminate.
      * exact IH.
Qed.

(** The dictionary built from rows maps a name to the last row of that
    name. *)
Lemma dict_get_rows (k : string) (rows : list other_exercise_row) :
  forall acc,
    dict_get k (fold_left (fun m row => dict_set (other_name row)
                                                 (intensities_of row) m)
                          rows acc)
    = match find (fun o => other_name o =? k) (rev rows) with
      | Some row => Some (intensities_of row)
      | None => dict_get k acc
      end.
Proof.
  induction rows as [| r rows IH]; intros acc; simpl; [reflexivity |].
  rewrite IH, find_snoc, dict_get_set.
  destruct (find (fun o => other_name o =? k) (rev rows)); [reflexivity |].
  destruct (other_name r =? k); reflexivity.
Qed.

Lemma unique_name_row (t : list other_exercise_row) (a b : other_exercise_row) :
  NoDup (map other_name t) -> In a t -> In b t ->
  other_name a = other_name b -> a = b.
Proof.
  induction t as [| x t IH]; simpl; intros Hnd Ha Hb E; [contradiction |].
  inversion Hnd as [| y l Hx Hl]; subst.
  destruct Ha as [<- | Ha]; destruct Hb as [<- | Hb].
  - reflexivity.
  - exfalso. apply Hx. rewrite E. apply in_map. exact Hb.
  - exfalso. apply Hx. rewrite <- E. apply in_map. exact Ha.
  - exact (IH Hl Ha Hb E).
Qed.

(** The dictionary built from the rows a user sees maps a name to the
    coefficients of the row of that name. *)
Lemma visible_dict_get (user_id : Z) (t : list other_exercise_row) :
  NoDup (map other_name t) ->
  forall name c,
    dict_get name
             (fold_left (fun m row => dict_set (other_name row)
                                               (intensities_of row) m)
                        (filter (other_exercise_visible user_id) t) [])
    = Some c
    <-> exists row,
        In row t /\ other_exercise_visible user_id row = true
        /\ other_name row = name /\ c = intensities_of row.
Proof.
  intros Hu name c. rewrite dict_get_rows. simpl. split.
  - destruct (find (fun o => other_name o =? name)
                   (rev (filter (other_exercise_visible user_id) t)))
      as [row |] eqn:E; [| discriminate].
    intros Hc. inversion Hc; subst c. apply find_some in E.
    destruct E as [HIn En]. apply in_rev in HIn. apply filter_In in HIn.
    destruct HIn as [HIn Hv]. apply String.eqb_eq in En.
    exists row. auto.
  - intros (row & HIn & Hv & Hn & ->).
    destruct (find (fun o => other_name o =? name)
                   (rev (filter (other_exercise_visible user_id) t)))
      as [row' |] eqn:E.
    + apply find_some in E. destruct E as [HIn' En]. apply in_rev in HIn'.
      apply filter_In in HIn'. destruct HIn' as [HIn' _].
      apply String.eqb_eq in En.
      rewrite (unique_name_row _ row row' Hu HIn HIn'); [reflexivity |].
      congruence.
    + exfalso.
      assert (HIn' : In row (rev (filter (other_exercise_visible user_id) t))).
      { apply in_rev. rewrite rev_involutive. apply filter_In. auto. }
      pose proof (find_none _ _ E row HIn') as Hn'. simpl in Hn'.
      rewrite Hn, String.eqb_refl in Hn'. discriminate.
Qed.

Lemma seeded_unique (user_id : Z) (d : database) :
  unique_exercise_names d -> unique_exercise_names (seeded user_id d).
Proof.
  pose proof (offer_exercises user_id pregenerated_exercises d) as H.
  simpl in H. destruct H as (_ & _ & _ & _ & _ & _ & _ & _ & Hu). exact Hu.
Qed.


(** X10.  The mapping [get_other_exercises] returns is the caller's
    view of the table it leaves: a name maps to coefficients exactly
    when the table holds a row of that name, owned by the caller or by
    nobody, with those coefficients. *)
Theorem get_other_exercises_mapping (user_id : Z) (ins : list event)
        (d : database) :
  unique_exercise_names d ->
  exists mapping w',
    get_other_exercises user_id (start ins d) = (Ok mapping, w')
    /\ forall name c,
        dict_get name mapping = Some c
        <-> exists row,
            In row (other_exercises (committed w'))
            /\ other_exercise_visible user_id row = true
            /\ other_name row = name
            /\ c = intensities_of row.
Proof.
  intros Hu. rewrite get_other_exercises_run. eexists. eexists.
  split; [reflexivity |]. simpl.
  apply visible_dict_get. exact (seeded_unique user_id d Hu).
Qed.

(** An offered exercise whose name the table lacks gets its row, owned
    by the caller. *)
Lemma offer_absent_exercise (user_id : Z) (es : list (string * Q * Q * Q))
      (name : string) (l m i : Q) :
  forall d,
    In (name, l, m, i) es ->
    NoDup (map catalog_name es) ->
    ~ In name (map other_name (other_exercises d)) ->
    In (mk_other_exercise (Some user_id) name l m i)
       (other_exercises
          (fold_left (fun d' e => insert_or_ignore_other_exercise user_id e d')
                     es d)).
Proof.
  induction es as [| e es IH]; intros d HIn Hnd Habs; [contradiction |].
  simpl. inversion Hnd as [| x xs Hx Hxs]; subst.
  destruct HIn as [-> | HIn].
  - remember (insert_or_ignore_other_exercise user_id (name, l, m, i) d)
      as d0 eqn:Hd0.
    pose proof (offer_exercises user_id es d0) as H.
    cbv zeta in H.
    destruct H as (_ & _ & _ & _ & _ & _ & (new & Hnew & _) & _).
    rewrite Hnew. apply in_or_app. left. subst d0.
    unfold insert_or_ignore_other_exercise.
    destruct (existsb (fun o => other_name o =? name) (other_exercises d))
      eqn:E.
    + apply existsb_name_in in E. contradiction.
    + simpl. apply in_or_app. right. simpl. auto.
  - apply IH; [exact HIn | exact Hxs |].
    destruct e as [[[name' l'] m'] i'].
    unfold insert_or_ignore_other_exercise.
    destruct (existsb (fun o => other_name o =? name') (other_exercises d));
      [exact Habs |].
    simpl. rewrite map_app. intros HIn'. apply in_app_or in HIn'.
    destruct HIn' as [HIn' | [E | []]]; [exact (Habs HIn') |].
    simpl in E. apply Hx. subst name'.
    apply (in_map catalog_name) in HIn. exact HIn.
Qed.

Lemma catalog_names_distinct : NoDup (map catalog_name pregenerated_exercises).
Proof.
  simpl. repeat constructor; simpl; intros H;
    repeat (destruct H as [H | H]; [discriminate H |]); exact H.
Qed.

Lemma first_listing_lookup (user_id : Z) (d : database) (name : string)
      (l m i : Q) :
  unique_exercise_names d ->
  (forall e, In e pregenerated_exercises ->
             ~ In (catalog_name e) (map other_name (other_exercises d))) ->
  In (name, l, m, i) pregenerated_exercises ->
  dict_get name
           (fold_left (fun acc row => dict_set (other_name row)
                                               (intensities_of row) acc)
                      (filter (other_exercise_visible user_id)
                              (other_exercises (seeded user_id d))) [])
  = Some (mk_intensities l m i).
Proof.
  intros Hu Habs HIn.
  apply (visible_dict_get user_id _ (seeded_unique user_id d Hu)).
  exists (mk_other_exercise (Some user_id) name l m i).
  split; [| split; [| split; reflexivity]].
  - apply offer_absent_exercise;
      [exact HIn | exact catalog_names_distinct | exact (Habs _ HIn)].
  - unfold other_exercise_visible. simpl. apply Z.eqb_refl.
Qed.

(** X11.  On a table that holds none of the four catalog names, a
    listing gives the caller all four catalog exercises with their
    three coefficients. *)
Theorem get_other_exercises_first_listing (user_id : Z) (ins : list event)
        (d : database) :
  unique_exercise_names d ->
  (forall e, In e pregenerated_exercises ->
             ~ In (catalog_name e) (map other_name (other_exercises d))) ->
  exists mapping w',
    get_other_exercises user_id (start ins d) = (Ok mapping, w')
    /\ forall name l m i,
        In (name, l, m, i) pregenerated_exercises ->
        dict_get name mapping = Some (mk_intensities l m i).
Proof.
  intros Hu Habs. rewrite get_other_exercises_run. eexists. eexists.
  split; [reflexivity |]. intros name l m i HIn.
  exact (first_listing_lookup user_id d name l m i Hu Habs HIn).
Qed.

(** X27.  For the user whose listing seeds the catalog,
    [calculate_calories_burned_other_exercises] on a catalog exercise
    returns the light, moderate or intense coefficient times the
    duration for the intensities ['1'], ['2'] and ['3'], and 0 for any
    other intensity; the call itself seeds the catalog into the
    store. *)
Theorem calories_burned_catalog_exercise (user_id : Z) (ins : list event)
        (d : database) (name intensity : string) (l m i duration : Q) :
  unique_exercise_names d ->
  (forall e, In e pregenerated_exercises ->
             ~ In (catalog_name e) (map other_name (other_exercises d))) ->
  In (name, l, m, i) pregenerated_exercises ->
  calculate_calories_burned_other_exercises user_id name intensity duration
                                            (start ins d)
  = (Ok (if intensity =? "1" then l * duration
         else if intensity =? "2" then m * duration
         else if intensity =? "3" then i * duration
         else 0),
     start ins (seeded user_id d)).
Proof.
  intros Hu Habs HIn.
  unfold calculate_calories_burned_other_exercises. rewrite try_raise_run.
  unfold with_connection. unfold bind at 1.
  change (mk_world (stdin (start ins d)) (committed (start ins d))
                   (committed (start ins d))) with (start ins d).
  rewrite get_other_exercises_run.
  rewrite (first_listing_lookup user_id d name l m i Hu Habs HIn).
  destruct (intensity =? "1"); [reflexivity |].
  destruct (intensity =? "2"); [reflexivity |].
  destruct (intensity =? "3"); reflexivity.
Qed.



(** X13.  Adding a custom exercise under a name the table already
    holds, a catalog name once seeded included, raises [IntegrityError]
    and stores nothing. *)
Theorem add_custom_exercise_duplicate_name (user_id : Z)
        (name s1 s2 s3 : string) (x1 x2 x3 : Q) (rest : list event)
        (d : database) :
  In name (map other_name (other_exercises d)) ->
  float_of_string s1 = Some x1 -> float_of_string s2 = Some x2 ->
  float_of_string s3 = Some x3 ->
  exists w',
    add_custom_exercise user_id
      (start (Line name :: Line s1 :: Line s2 :: Line s3 :: rest) d)
    = (Raise IntegrityError, w')
    /\ committed w' = d /\ working w' = d.
Proof.
  intros HIn H1 H2 H3. apply existsb_name_in in HIn.
  unfold add_custom_exercise, try_except, with_connection, start, bind, input,
    get_float_input, on_stdin, insert_other_exercise.
  simpl. rewrite H1. simpl. rewrite H2. simpl. rewrite H3. simpl.
  rewrite HIn. simpl. eexists. split; [reflexivity |]. split; reflexivity.
Qed.

(** ** The exercise log *)

Lemma keeps_committed_lift {A} (r0 : outcome A) : keeps_committed (lift r0).
Proof. apply read_only_keeps_committed, read_only_lift. Qed.

Lemma keeps_committed_raise {A} (e : exn) : keeps_committed (@raise A e).
Proof. apply read_only_keeps_committed, read_only_raise. Qed.

#[local] Hint Resolve keeps_committed_lift keeps_committed_raise : committed.

Lemma get_float_input_ok_inv (w w' : world) (x : Q) :
  get_float_input w = (Ok x, w') ->
  (exists s, float_of_string s = Some x) /\ same_db w w'.
Proof. apply on_stdin_ok_inv. Qed.

(** What a logged exercise leaves on disk when [log_exercise]
    returns. *)
Lemma log_exercise_stored (user_id now : Z) (ins : list event) (d : database)
      (w' : world) :
  log_exercise user_id now (start ins d) = (Ok tt, w') ->
  exists name rest reps weight duration distance,
    ins = Line name :: rest
    /\ committed w'
       = insert_exercise user_id name reps weight duration distance now d.
Proof.
  intros H. apply try_rollback_raise in H. destruct H as (w1 & H & Hc & _).
  rewrite Hc. clear Hc w'.
  unfold with_connection, start in H. simpl in H.
  match type of H with
  | context [bind input ?k ?w] =>
      destruct (bind input k w) as [[[] | e |] w2] eqn:E
  end; try discriminate H.
  inversion H; subst w1; clear H. simpl.
  apply bind_ok in E. destruct E as (name & v1 & E1 & E).
  apply input_ok_inv in E1. destruct E1 as [I1 S1]. simpl in I1.
  apply bind_ok in E. destruct E as (reps & v2 & E2 & E).
  apply get_float_input_ok_inv in E2. destruct E2 as [_ S2].
  apply bind_ok in E. destruct E as (weight & v3 & E3 & E).
  apply get_float_input_ok_inv in E3. destruct E3 as [_ S3].
  apply bind_ok in E. destruct E as (duration & v4 & E4 & E).
  apply get_float_input_ok_inv in E4. destruct E4 as [_ S4].
  apply bind_ok in E. destruct E as (distance & v5 & E5 & E).
  apply get_float_input_ok_inv in E5. destruct E5 as [_ S5].
  apply bind_ok in E. destruct E as ([] & v6 & E6 & E).
  unfold execute in E6. inversion E6; subst v6; clear E6.
  apply bind_ok in E. destruct E as (enter & v7 & E7 & E).
  apply input_ok_inv in E7. destruct E7 as [_ S7].
  unfold commit in E. inversion E; subst w2; clear E. simpl.
  exists name, (stdin v1), reps, weight, duration, distance.
  split; [exact I1 |].
  unfold same_db in *. simpl in *.
  destruct S1 as [_ S1], S2 as [_ S2], S3 as [_ S3], S4 as [_ S4],
           S5 as [_ S5], S7 as [_ S7].
  rewrite S7. f_equal. congruence.
Qed.

(** X14.  [log_exercise] stores a logged exercise whole or not at all:
    when it returns, exactly one row was appended to the exercises
    table, carrying the user, the name typed first and the clock's
    timestamp; when it raises (an interrupt or end of input at any
    prompt, the closing one included) the store is as it was. *)
Theorem log_exercise_all_or_nothing (user_id now : Z) (ins : list event)
        (d : database) (r : outcome unit) (w' : world) :
  log_exercise user_id now (start ins d) = (r, w') ->
  (r = Ok tt
   /\ exists name rest reps weight duration distance,
       ins = Line name :: rest
       /\ committed w'
          = insert_exercise user_id name reps weight duration distance now d)
  \/ ((forall a, r <> Ok a) /\ committed w' = d).
Proof.
  intros H.
  assert (Hfail : (forall a, r <> Ok a) -> committed w' = d).
  { intros Hr. apply try_rollback_raise in H.
    destruct H as (w1 & H & Hc & _). rewrite Hc.
    refine (proj1 (with_connection_publishes _ _ _ _ _ H Hr)).
    repeat (apply publishes_bind; [solve [auto with committed] | intros ?]).
    apply publishes_commit. }
  destruct r as [[] | e |].
  - left. split; [reflexivity |].
    exact (log_exercise_stored user_id now ins d w' H).
  - right. assert (Hr : forall a : unit, Raise e <> Ok a)
      by (intros a; discriminate). auto.
  - right. assert (Hr : forall a : unit, @Diverged unit <> Ok a)
      by (intros a; discriminate). auto.
Qed.

(** X15.  Once an exercise is logged under a name, the progress query
    of that user joins every goal row on that name that has a target
    with the new entry. *)
Theorem log_exercise_then_progress (user_id now : Z) (name : string)
        (rest : list event) (d : database) (w' : world) (g : goal_row) :
  log_exercise user_id now (start (Line name :: rest) d) = (Ok tt, w') ->
  In g (goals d) ->
  has_target g = true ->
  goals_exercise_name g = Some name ->
  exists e,
    In (join_row g (Some e)) (progress_query user_id (committed w'))
    /\ exercises_user_id e = user_id
    /\ exercises_name e = name
    /\ exercises_timestamp e = now.
Proof.
  intros H HIn Ht Hn. apply log_exercise_stored in H.
  destruct H as (name0 & rest0 & reps & weight & duration & distance & Hins
                 & Hc).
  inversion Hins; subst name0 rest0; clear Hins.
  exists (mk_exercise user_id name (Some reps) (Some weight) (Some duration)
                      (Some distance) now).
  split; [| repeat split].
  rewrite Hc. unfold progress_query. apply in_flat_map. exists g. split.
  - simpl. apply filter_In. auto.
  - simpl. rewrite filter_app. simpl.
    replace ((user_id =? user_id)%Z
             && name_matches g
                  (mk_exercise user_id name (Some reps) (Some weight)
                               (Some duration) (Some distance) now))
      with true.
    2: { unfold name_matches. rewrite Hn. simpl.
         rewrite Z.eqb_refl, String.eqb_refl. reflexivity. }
    set (old := filter (fun e => (exercises_user_id e =? user_id)%Z
                                 && name_matches g e) (exercises d)).
    set (e := mk_exercise user_id name (Some reps) (Some weight)
                          (Some duration) (Some distance) now).
    assert (HIne : In e (old ++ [e])) by (apply in_or_app; right; simpl; auto).
    destruct (old ++ [e])%list as [| x xs] eqn:E; [contradiction |].
    apply (in_map (fun e => join_row g (Some e))) in HIne. exact HIne.
Qed.

(** ** Completed routines *)

Lemma bind_run {A B} (m : M A) (k : A -> M B) (w w1 : world) (a : A) :
  m w = (Ok a, w1) -> bind m k w = k a w1.
Proof. intros H. unfold bind. rewrite H. reflexivity. Qed.

Lemma input_line (s : string) (rest : list event) (c wk : database) :
  input (mk_world (Line s :: rest) c wk) = (Ok s, mk_world rest c wk).
Proof. reflexivity. Qed.

Lemma get_float_input_line (s : string) (rest : list event) (c wk : database) :
  numeric s ->
  get_float_input (mk_world (Line s :: rest) c wk)
  = (Ok (number s), mk_world rest c wk).
Proof.
  unfold numeric, number, get_float_input, on_stdin. simpl.
  destruct (float_of_string s); [reflexivity | intros H; contradiction].
Qed.

Lemma routine_sets_typed (user_id : Z) (routine_name exercise_name : string)
      (ts : list typed_set) :
  forall set_number exercise_list tail c wk,
    Forall well_typed_set ts ->
    routine_sets (List.length ts) set_number user_id routine_name exercise_name
                 exercise_list
                 (mk_world (flat_map set_lines ts ++ tail)%list c wk)
    = (Ok (exercise_list
             ++ numbered_rows user_id routine_name exercise_name set_number ts)%list,
       mk_world tail c wk).
Proof.
  induction ts as [| t ts IH]; intros set_number exercise_list tail c wk Hall.
  - simpl. rewrite app_nil_r. reflexivity.
  - inversion Hall as [| x l (H1 & H2 & H3 & H4) Hrest]; subst.
    cbn [List.length routine_sets flat_map set_lines app].
    rewrite (bind_run _ _ _ _ _ (get_float_input_line _ _ c wk H1)).
    rewrite (bind_run _ _ _ _ _ (get_float_input_line _ _ c wk H2)).
    rewrite (bind_run _ _ _ _ _ (get_float_input_line _ _ c wk H3)).
    rewrite (bind_run _ _ _ _ _ (get_float_input_line _ _ c wk H4)).
    rewrite (IH _ _ tail c wk Hrest). cbn [numbered_rows].
    rewrite <- app_assoc. reflexivity.
Qed.

Lemma routine_entries_typed (user_id : Z) (routine_name finish : string)
      (exercises : list typed_exercise) :
  forall fuel exercise_list tail c wk,
    (List.length exercises < fuel)%nat ->
    Forall well_typed_exercise exercises ->
    lower finish = "end" ->
    routine_entries fuel user_id routine_name exercise_list
                    (mk_world (flat_map exercise_lines exercises
                                 ++ Line finish :: tail)%list c wk)
    = (Ok (exercise_list
             ++ flat_map (exercise_rows user_id routine_name) exercises)%list,
       mk_world tail c wk).
Proof.
  induction exercises as [| e es IH];
    intros fuel exercise_list tail c wk Hfuel Hall Hend;
    (destruct fuel as [| fuel]; [simpl in Hfuel; lia |]).
  - cbn [flat_map app routine_entries].
    rewrite (bind_run _ _ _ _ _ (input_line _ _ c wk)).
    rewrite Hend. simpl. rewrite app_nil_r. reflexivity.
  - inversion Hall as [| x l (Hname & Hsets & Hrows & Hlen) Hrest]; subst.
    cbn [flat_map exercise_lines app routine_entries].
    rewrite (bind_run _ _ _ _ _ (input_line _ _ c wk)).
    apply String.eqb_neq in Hname. rewrite Hname.
    rewrite (bind_run _ _ _ _ _ (get_float_input_line _ _ c wk Hsets)).
    rewrite <- app_assoc. unfold sets_asked in Hlen.
    destruct (Qlt_le_dec 0 (number (typed_sets e))).
    + rewrite <- Hlen.
      rewrite (bind_run _ _ _ _ _
                 (routine_sets_typed user_id routine_name (typed_name e)
                    (typed_rows e) 1%Z exercise_list _ c wk Hrows)).
      rewrite (IH fuel _ tail c wk); [| simpl in Hfuel; lia | exact Hrest
                                       | exact Hend].
      rewrite <- app_assoc. reflexivity.
    + destruct (typed_rows e) as [| t [| t' ts]] eqn:Erows;
        try discriminate Hlen.
      inversion Hrows as [| x l (H1 & H2 & H3 & H4) _]; subst.
      cbn [flat_map set_lines app].
      rewrite (bind_run _ _ _ _ _ (get_float_input_line _ _ c wk H1)).
      rewrite (bind_run _ _ _ _ _ (get_float_input_line _ _ c wk H2)).
      rewrite (bind_run _ _ _ _ _ (get_float_input_line _ _ c wk H3)).
      rewrite (bind_run _ _ _ _ _ (get_float_input_line _ _ c wk H4)).
      rewrite (IH fuel _ tail c wk); [| simpl in Hfuel; lia | exact Hrest
                                       | exact Hend].
      unfold exercise_rows at 2. rewrite Erows. cbn [numbered_rows flat_map].
      rewrite <- app_assoc. reflexivity.
Qed.

Lemma exercise_lines_length (exercises : list typed_exercise) :
  (List.length exercises
   <= List.length (flat_map exercise_lines exercises))%nat.
Proof.
  induction exercises as [| e es IH]; simpl; [lia |].
  rewrite length_app. lia.
Qed.

Lemma insert_routines_fold (rows : list routine_row) :
  forall d,
    fold_left (fun d' exercise => insert_routine exercise d') rows d
    = set_routines (routines d ++ rows)%list d.
Proof.
  induction rows as [| r rows IH]; intros d; simpl.
  - rewrite app_nil_r. destruct d; reflexivity.
  - rewrite IH. unfold insert_routine, set_routines. simpl.
    rewrite <- app_assoc. reflexivity.
Qed.

(** X16.  A routine typed as the prompts ask (for each exercise a
    name, a number of sets, and four numbers per set; then the closing
    word and the confirmation) is stored in one piece: appended to the
    routines table, in the order typed, is one row per set with the
    user, the routine name, the exercise name, the four numbers of the
    set and the set's number, counted from 1 within its exercise (a
    single row numbered 1 when the number of sets is not positive).
    Nothing else changes, the lines after the confirmation stay
    unread, and a routine name already in use is stored again once the
    warning is acknowledged. *)
Theorem create_routine_completed (user_id : Z)
        (routine_name ack finish enter : string)
        (exercises : list typed_exercise) (rest : list event) (d : database) :
  Forall well_typed_exercise exercises ->
  lower finish = "end" ->
  create_routine user_id
    (start (Line routine_name
              :: acknowledgement user_id routine_name ack d
              ++ flat_map exercise_lines exercises
              ++ Line finish :: Line enter :: rest)%list d)
  = (Ok tt,
     start rest
           (set_routines
              (routines d
                 ++ flat_map (exercise_rows user_id routine_name) exercises)%list
              d)).
Proof.
  intros Hall Hend.
  unfold create_routine, with_connection, try_except, start.
  cbn [stdin committed working]. unfold routine_attempt.
  rewrite (bind_run _ _ _ _ _ (input_line _ _ d d)).
  unfold bind at 1. unfold query at 1. cbn [working].
  unfold acknowledgement.
  assert (Hfuel : forall tail : list event,
             (List.length exercises
              < S (List.length (flat_map exercise_lines exercises ++ tail)%list))%nat).
  { intros tail. rewrite length_app.
    pose proof (exercise_lines_length exercises). lia. }
  destruct (select_routine user_id routine_name d).
  - cbn [app].
    rewrite (bind_run _ _ _
               (mk_world (flat_map exercise_lines exercises
                            ++ Line finish :: Line enter :: rest)%list d d) tt);
      [| reflexivity].
    unfold bind at 1. unfold pending_events at 1. cbn [stdin].
    rewrite (bind_run _ _ _ _ _
               (routine_entries_typed user_id routine_name finish exercises _
                  [] (Line enter :: rest) d d (Hfuel _) Hall Hend)).
    unfold bind, execute, input, commit. simpl.
    rewrite insert_routines_fold. reflexivity.
  - cbn [app].
    rewrite (bind_run _ _ _
               (mk_world (flat_map exercise_lines exercises
                            ++ Line finish :: Line enter :: rest)%list d d) tt);
      [| reflexivity].
    unfold bind at 1. unfold pending_events at 1. cbn [stdin].
    rewrite (bind_run _ _ _ _ _
               (routine_entries_typed user_id routine_name finish exercises _
                  [] (Line enter :: rest) d d (Hfuel _) Hall Hend)).
    unfold bind, execute, input, commit. simpl.
    rewrite insert_routines_fold. reflexivity.
Qed.

(** X17.  [create_routine] lets no [KeyboardInterrupt] out, at
    whatever prompt it arrives: the interrupt is caught.  Whenever
    [create_routine] does raise, the store is as it was. *)
Theorem create_routine_outcomes (user_id : Z) (ins : list event)
        (d : database) (r : outcome unit) (w' : world) :
  create_routine user_id (start ins d) = (r, w') ->
  r <> Raise KeyboardInterrupt
  /\ ((forall a, r <> Ok a) -> committed w' = d).
Proof.
  unfold create_routine, with_connection, try_except, start. simpl.
  pose proof (routine_attempt_publishes user_id (mk_world ins d d)) as Hp.
  destruct (routine_attempt user_id (mk_world ins d d)) as [[[] | e |] w1].
  - intros H. inversion H; subst. split; [discriminate |].
    intros Hr. exfalso. exact (Hr tt eq_refl).
  - assert (Hc : committed w1 = d).
    { apply (Hp _ _ eq_refl). intros a. discriminate. }
    destruct e; simpl; intros H; inversion H; subst r w'; clear H;
      (split; [discriminate |]); intros Hr; simpl;
      first [exact Hc | exfalso; exact (Hr tt eq_refl)].
  - assert (Hc : committed w1 = d).
    { apply (Hp _ _ eq_refl). intros a. discriminate. }
    intros H. inversion H; subst r w'; clear H. split; [discriminate |].
    intros _. exact Hc.
Qed.

(** ** Profile updates *)

Lemma update_profile_dispatch (user_id : Z) (option : string)
      (ins : list event) (d : database) :
  update_profile user_id (start (Line option :: ins) d)
  = leave_block
      ((if option =? "1" then update_weight user_id
        else if option =? "2" then add_exercise_goal user_id
        else if option =? "3" then update_fitness_goal user_id
        else ret tt) (start ins d)).
Proof. unfold update_profile. rewrite try_raise_run. reflexivity. Qed.

Lemma leave_block_ok {A} (res : outcome A * world) (a : A) (w' : world) :
  leave_block res = (Ok a, w') ->
  exists w1, res = (Ok a, w1) /\ committed w' = working w1.
Proof.
  destruct res as [[a0 | e |] w1]; simpl; intros H; inversion H; subst.
  exists w1. split; reflexivity.
Qed.

Lemma set_goal_attribute_run (user_id : Z) (exercise_name : string)
      (a : goal_attribute) (v : Q) (w : world) :
  set_goal_attribute user_id exercise_name a v w
  = (Ok tt, set_working (goal_written user_id exercise_name a v (working w)) w).
Proof.
  unfold set_goal_attribute, goal_written, bind, query, execute.
  destruct (select_goal user_id exercise_name a (working w)); reflexivity.
Qed.

(** What option 2 leaves on disk when it returns. *)
Lemma add_exercise_goal_store (user_id : Z) (exercise_name attribute : string)
      (a : goal_attribute) (rest : list event) (d : database) (w' : world) :
  attribute_of_string (lower attribute) = Some a ->
  update_profile user_id
    (start (Line "2" :: Line exercise_name :: Line attribute :: rest) d)
  = (Ok tt, w') ->
  exists v,
    (exists s, float_of_string s = Some v)
    /\ committed w' = goal_written user_id exercise_name a v d.
Proof.
  intros Ha H. rewrite update_profile_dispatch in H. simpl in H.
  apply leave_block_ok in H. destruct H as (w1 & H & Hc).
  unfold add_exercise_goal in H.
  apply bind_ok in H. destruct H as (name & v1 & E1 & H).
  unfold input, start in E1. simpl in E1. inversion E1; subst name v1; clear E1.
  apply bind_ok in H. destruct H as (attr & v2 & E2 & H).
  unfold input in E2. simpl in E2. inversion E2; subst attr v2; clear E2.
  apply bind_ok in H. destruct H as (v & v3 & E3 & H).
  apply get_float_input_ok_inv in E3. destruct E3 as [Hs [_ S3]].
  simpl in S3. rewrite Ha in H.
  apply bind_ok in H. destruct H as ([] & v4 & E4 & H).
  rewrite set_goal_attribute_run in E4. inversion E4; subst v4; clear E4.
  apply bind_ok in H. destruct H as (enter & v5 & E5 & H).
  apply input_ok_inv in E5. destruct E5 as [_ [_ S5]]. simpl in S5.
  inversion H; subst w1; clear H.
  exists v. split; [exact Hs |]. rewrite Hc, S5, S3. reflexivity.
Qed.

Lemma goal_of_set_target (user_id : Z) (exercise_name : string)
      (a : goal_attribute) (v : option Q) (g : goal_row) :
  goal_of user_id exercise_name (set_target a v g)
  = goal_of user_id exercise_name g.
Proof. destruct a; reflexivity. Qed.

Lemma target_set_target (a : goal_attribute) (v : option Q) (g : goal_row) :
  target a (set_target a v g) = v.
Proof. destruct a; reflexivity. Qed.

(** After the write, the lookup of option 2 finds a row with the new
    target, and no goal row of the user on the exercise holds another
    value for it. *)
Lemma goal_written_lookup (user_id : Z) (exercise_name : string)
      (a : goal_attribute) (v : Q) (d : database) :
  (exists g,
      select_goal user_id exercise_name a
                  (goal_written user_id exercise_name a v d) = Some g
      /\ target a g = Some v)
  /\ forall g,
      In g (goals (goal_written user_id exercise_name a v d)) ->
      goal_of user_id exercise_name g = true ->
      target a g = Some v \/ target a g = None.
Proof.
  unfold goal_written, select_goal.
  destruct (find (fun g => goal_of user_id exercise_name g
                           && is_not_null (target a g)) (goals d))
    as [g0 |] eqn:E.
  - simpl. split.
    + revert E. induction (goals d) as [| x l IH]; simpl; [discriminate |].
      destruct (goal_of user_id exercise_name x) eqn:Hx.
      * intros _. rewrite goal_of_set_target, Hx, target_set_target. simpl.
        eexists. split; [reflexivity | apply target_set_target].
      * rewrite Hx. simpl. exact IH.
    + intros g HIn Hg. apply in_map_iff in HIn. destruct HIn as (x & Hx & _).
      destruct (goal_of user_id exercise_name x) eqn:E0.
      * subst g. left. apply target_set_target.
      * subst g. congruence.
  - simpl. split.
    + rewrite find_snoc, E. rewrite goal_of_set_target, target_set_target.
      unfold goal_of. simpl. rewrite Z.eqb_refl, String.eqb_refl. simpl.
      eexists. split; [reflexivity | apply target_set_target].
    + intros g HIn Hg. apply in_app_or in HIn. destruct HIn as [HIn | [<- | []]].
      * right. pose proof (find_none _ _ E g HIn) as Hn. simpl in Hn.
        rewrite Hg in Hn. simpl in Hn. destruct (target a g); [discriminate |].
        reflexivity.
      * left. apply target_set_target.
Qed.

(** The float prompt asks again after every line [float] rejects. *)
Lemma get_float_input_skips (rejected : list string) (s : string) (v : Q)
      (tail : list event) (c wk : database) :
  Forall (fun l => float_of_string l = None) rejected ->
  float_of_string s = Some v ->
  get_float_input (mk_world (map Line rejected ++ Line s :: tail)%list c wk)
  = (Ok v, mk_world tail c wk).
Proof.
  intros Hrej Hs. unfold get_float_input, on_stdin. cbn [stdin].
  induction Hrej as [| l rejected Hl _ IH]; simpl.
  - rewrite Hs. reflexivity.
  - rewrite Hl. exact IH.
Qed.

(** X18.  Option 2 of the profile menu, given an exercise name, one of
    the attributes reps, weight, distance, duration (in any letter
    case, followed at most by blanks or closed comments), at the target
    prompt a line [s] that [float] reads as the number [v] (after any
    lines that [float] rejects, each asked again) and the confirmation,
    returns, and afterwards the goal lookup for that user, exercise and
    attribute finds a row holding [v]; no goal row of that user and
    exercise holds a different value for the attribute. *)
Theorem add_exercise_goal_then_found (user_id : Z)
        (exercise_name attribute s enter : string) (a : goal_attribute)
        (v : Q) (rejected : list string) (rest : list event) (d : database) :
  attribute_of_string (lower attribute) = Some a ->
  Forall (fun l => float_of_string l = None) rejected ->
  float_of_string s = Some v ->
  exists w' g,
    update_profile user_id
      (start (Line "2" :: Line exercise_name :: Line attribute
                   :: map Line rejected ++ Line s :: Line enter :: rest)%list
             d)
    = (Ok tt, w')
    /\ stdin w' = rest
    /\ select_goal user_id exercise_name a (committed w') = Some g
    /\ target a g = Some v
    /\ forall g',
        In g' (goals (committed w')) ->
        goal_of user_id exercise_name g' = true ->
        target a g' = Some v \/ target a g' = None.
Proof.
  intros Ha Hrej Hs.
  destruct (goal_written_lookup user_id exercise_name a v d)
    as [(g & Hg & Ht) Hall].
  exists (start rest (goal_written user_id exercise_name a v d)), g.
  split; [| cbn [start stdin committed]; auto].
  rewrite update_profile_dispatch.
  change ("2" =? "1") with false. change ("2" =? "2") with true. cbv iota.
  unfold add_exercise_goal, start.
  rewrite (bind_run _ _ _ _ _ (input_line _ _ d d)).
  rewrite (bind_run _ _ _ _ _ (input_line _ _ d d)).
  rewrite (bind_run _ _ _ _ _
             (get_float_input_skips rejected s v _ d d Hrej Hs)).
  rewrite Ha.
  rewrite (bind_run _ _ _ _ _ (set_goal_attribute_run _ _ _ _ _)).
  unfold bind, input, set_working, leave_block. simpl. reflexivity.
Qed.

Lemma same_goal_but_refl (a : goal_attribute) (user_id : Z)
      (exercise_name : string) (g : goal_row) :
  same_goal_but a user_id exercise_name g g.
Proof. repeat split. Qed.

(** X19.  Option 2 of the profile menu, given one of the attributes
    reps, weight, distance, duration (in any letter case, followed at
    most by blanks or closed comments), touches nothing but the target
    it sets: when it has returned, the users table and every daily
    calorie goal are as they were, the goal rows of other users and
    other exercises are unchanged, the other targets of every row are
    unchanged, and at most one row is added. *)
Theorem add_exercise_goal_frame (user_id : Z)
        (exercise_name attribute : string) (a : goal_attribute)
        (rest : list event) (d : database) (w' : world) :
  attribute_of_string (lower attribute) = Some a ->
  update_profile user_id
    (start (Line "2" :: Line exercise_name :: Line attribute :: rest) d)
  = (Ok tt, w') ->
  users (committed w') = users d
  /\ exercises (committed w') = exercises d
  /\ routines (committed w') = routines d
  /\ other_exercises (committed w') = other_exercises d
  /\ exists kept added,
      goals (committed w') = (kept ++ added)%list
      /\ Forall2 (same_goal_but a user_id exercise_name) (goals d) kept
      /\ (List.length added <= 1)%nat.
Proof.
  intros Ha H.
  destruct (add_exercise_goal_store _ _ _ _ _ _ _ Ha H) as (v & _ & Hc).
  rewrite Hc. unfold goal_written.
  destruct (select_goal user_id exercise_name a d).
  - repeat split; try reflexivity.
    exists (map (fun g => if goal_of user_id exercise_name g
                          then set_target a (Some v) g else g) (goals d)), [].
    rewrite app_nil_r. split; [reflexivity |]. split; [| simpl; lia].
    induction (goals d) as [| x l IH]; simpl; constructor; [| exact IH].
    destruct (goal_of user_id exercise_name x) eqn:Hg;
      [| apply same_goal_but_refl].
    destruct (set_target_other_columns a (Some v) x)
      as (H1 & H2 & H3 & H4 & _ & H6).
    repeat split; try assumption. intros Hf. congruence.
  - repeat split; try reflexivity.
    eexists. eexists. split; [reflexivity |]. split; [| simpl; lia].
    induction (goals d) as [| x l IH]; constructor;
      [apply same_goal_but_refl | exact IH].
Qed.

Lemma keeps_committed_set_goal_attribute (user_id : Z) (exercise_name : string)
      (a : goal_attribute) (v : Q) :
  keeps_committed (set_goal_attribute user_id exercise_name a v).
Proof.
  intros w r w' E. rewrite set_goal_attribute_run in E. inversion E; subst.
  reflexivity.
Qed.

(** X20.  [update_profile] is all or nothing: if it raises, at the
    closing prompt after the update included, the store on disk is as it
    was. *)
Theorem update_profile_failure_keeps_store (user_id : Z) (ins : list event)
        (d : database) (r : outcome unit) (w' : world) :
  update_profile user_id (start ins d) = (r, w') ->
  (forall a, r <> Ok a) ->
  committed w' = d.
Proof.
  unfold update_profile. rewrite try_raise_run. intros H Hr.
  refine (proj1 (with_connection_publishes _ _ _ _ _ H Hr)).
  apply keeps_committed_weaken.
  apply keeps_committed_bind; [auto with committed | intros option].
  destruct (option =? "1"); [| destruct (option =? "2");
                               [| destruct (option =? "3")]].
  - unfold update_weight.
    apply keeps_committed_bind; [auto with committed | intros new_weight].
    apply keeps_committed_bind; [auto with committed | intros bio].
    destruct bio as [[[height age] gender] |]; keeps_committed_steps.
  - unfold add_exercise_goal.
    repeat (apply keeps_committed_bind;
            [solve [auto with committed] | intros ?]).
    destruct (attribute_of_string (lower a0)); [| auto with committed].
    apply keeps_committed_bind;
      [apply keeps_committed_set_goal_attribute | intros ?].
    keeps_committed_steps.
  - unfold update_fitness_goal. keeps_committed_steps.
  - auto with committed.
Qed.


Lemma Forall2_map_cases {A} (p : A -> Prop) (test : A -> bool) (f : A -> A)
      (l : list A) :
  (forall x, test x = true <-> p x) ->
  Forall2 (fun x x' => (p x -> x' = f x) /\ (~ p x -> x' = x))
          l (map (fun x => if test x then f x else x) l).
Proof.
  intros Ht. induction l as [| x l IH]; simpl; constructor; [| exact IH].
  destruct (test x) eqn:E.
  - split; [reflexivity |]. intros Hn. exfalso. apply Hn, Ht, E.
  - split; [| reflexivity]. intros Hp. apply Ht in Hp. congruence.
Qed.


(** X22.  A weight update for an identifier with no user row raises
    [UnboundLocalError] after the weight was typed, and changes
    nothing. *)
Theorem update_weight_unknown_user (user_id : Z) (s : string) (x : Q)
        (rest : list event) (d : database) :
  select_biometrics user_id d = None ->
  float_of_string s = Some x ->
  exists w',
    update_profile user_id (start (Line "1" :: Line s :: rest) d)
    = (Raise UnboundLocalError, w')
    /\ committed w' = d.
Proof.
  intros Hbio Hs. rewrite update_profile_dispatch. simpl.
  unfold update_weight, bind, get_float_input, on_stdin, query, input, start.
  simpl. rewrite Hs. simpl. rewrite Hbio. simpl.
  eexists. split; reflexivity.
Qed.

(** X23.  Option 3 of the profile menu accepts whatever line is typed
    and stores one text, unchecked, as the fitness goal of the user:
    the line in lower case when the line is of ASCII characters.  It
    changes no other column of the user, no other user and no goal
    row, so the daily calorie goal is not recomputed. *)
Theorem update_fitness_goal_effect (user_id : Z) (line enter : string)
        (rest : list event) (d : database) :
  exists w' new_goal,
    update_profile user_id
      (start (Line "3" :: Line line :: Line enter :: rest) d)
    = (Ok tt, w')
    /\ (ascii_only line = true -> new_goal = lower line)
    /\ goals (committed w') = goals d
    /\ Forall2 (fun u u' =>
                  (users_id u = user_id
                   -> u' = with_fitness_goal new_goal u)
                  /\ (users_id u <> user_id -> u' = u))
               (users d) (users (committed w')).
Proof.
  rewrite update_profile_dispatch. simpl.
  eexists. exists (lower line). split; [reflexivity |]. simpl.
  split; [reflexivity |]. split; [reflexivity |].
  apply Forall2_map_cases. intros y. apply Z.eqb_eq.
Qed.

(** ** The progress chart *)

Lemma category_values_last (i : nat) (front : list progress_entry)
      (entry : progress_entry) :
  exists p,
    percentage_progress (entry_at entry (i + 1)) (entry_at entry (i + 5)) = Ok p
    /\ category_values i (front ++ [entry]) = Ok [p].
Proof.
  destruct (percentage_progress_total (entry_at entry (i + 1))
                                      (entry_at entry (i + 5))) as [p Hp].
  exists p. split; [exact Hp |].
  unfold category_values. rewrite last_assignment_app, Hp. reflexivity.
Qed.

Lemma category_loop_last (front : list progress_entry) (entry : progress_entry) :
  exists p,
    percentage_progress (entry_at entry 4) (entry_at entry 8) = Ok p
    /\ category_loop (combine (seq 0 (List.length categories)) categories)
                     (front ++ [entry]) None
       = Ok (Some ("Distance", [p])).
Proof.
  destruct (category_values_last 0 front entry) as (p0 & _ & H0).
  destruct (category_values_last 1 front entry) as (p1 & _ & H1).
  destruct (category_values_last 2 front entry) as (p2 & _ & H2).
  destruct (category_values_last 3 front entry) as (p3 & Hp & H3).
  exists p3. split; [exact Hp |].
  cbn [List.length categories seq combine category_loop].
  rewrite H0. cbn [category_loop]. rewrite H1. cbn [category_loop].
  rewrite H2. cbn [category_loop]. rewrite H3. reflexivity.
Qed.

(** X24.  [view_exercise_progress] never raises and never changes the
    store.  With no entry left after the filter it draws nothing;
    otherwise it draws one bar series, labelled ['Distance'], holding
    one value: the percentage of the last entry left, computed from its
    columns 4 and 8 (the duration target and the logged duration), over
    the exercise names of all the rows of the query. *)
Theorem view_exercise_progress_chart (user_id : Z) (ins : list event)
        (d : database) :
  let shown := filter (fun entry => existsb truthy (snd entry))
                      (progress_query user_id d) in
  (shown = [] ->
   view_exercise_progress user_id (start ins d) = (Ok None, start ins d))
  /\ (forall front entry,
         shown = (front ++ [entry])%list ->
         exists p,
           percentage_progress (entry_at entry 4) (entry_at entry 8) = Ok p
           /\ view_exercise_progress user_id (start ins d)
              = (Ok (Some (mk_bar_chart
                             (map fst (progress_query user_id d))
                             "Distance" [p])),
                 start ins d))
  /\ (forall g e,
         entry_at (join_row g (Some e)) 4 = goals_target_duration g
         /\ entry_at (join_row g (Some e)) 8 = exercises_duration e).
Proof.
  intros shown. split; [| split].
  - intros E. unfold view_exercise_progress, try_except, with_connection,
                bind, query, start. simpl. fold shown. rewrite E. reflexivity.
  - intros front entry E.
    destruct (category_loop_last front entry) as (p & Hp & Hloop).
    exists p. split; [exact Hp |].
    unfold view_exercise_progress, try_except, with_connection, start.
    unfold bind at 1. unfold query at 1. cbn [working committed stdin].
    fold shown. rewrite E.
    destruct (front ++ [entry])%list as [| x xs] eqn:Ex.
    { destruct front; discriminate Ex. }
    cbv beta iota. rewrite <- Ex. unfold bind, lift.
    unfold progress_entry in *. rewrite Hloop. reflexivity.
  - intros g e. split; reflexivity.
Qed.






(** ** Calories *)

Lemma insert_date_in (t t' : Z) (dates : list Z) :
  In t (insert_date t' dates) <-> t = t' \/ In t dates.
Proof.
  induction dates as [| x l IH]; simpl.
  - intuition.
  - destruct (t' <? x)%Z eqn:E1; [simpl; intuition |].
    destruct (t' =? x)%Z eqn:E2.
    + apply Z.eqb_eq in E2. subst x. simpl. intuition.
    + simpl. rewrite IH. intuition.
Qed.

Lemma insert_date_sorted (t : Z) (dates : list Z) :
  StronglySorted Z.lt dates -> StronglySorted Z.lt (insert_date t dates).
Proof.
  induction dates as [| x l IH]; simpl; intros Hs.
  - constructor; [constructor | constructor].
  - inversion Hs as [| y l' Hl Hx]; subst.
    destruct (t <? x)%Z eqn:E1.
    + apply Z.ltb_lt in E1. constructor; [exact Hs |].
      constructor; [exact E1 |].
      rewrite Forall_forall in *. intros z Hz. specialize (Hx z Hz). lia.
    + destruct (t =? x)%Z eqn:E2; [exact Hs |].
      apply Z.ltb_ge in E1. apply Z.eqb_neq in E2.
      constructor; [exact (IH Hl) |].
      rewrite Forall_forall in *. intros z Hz. apply insert_date_in in Hz.
      destruct Hz as [-> | Hz]; [lia | exact (Hx z Hz)].
Qed.

Lemma group_dates_sorted (rows : list calorie_row) :
  StronglySorted Z.lt (group_dates rows).
Proof.
  unfold group_dates. induction rows as [| c rows IH]; simpl.
  - constructor.
  - apply insert_date_sorted. exact IH.
Qed.

Lemma group_dates_in (rows : list calorie_row) (t : Z) :
  In t (group_dates rows) <-> In t (map calories_timestamp rows).
Proof.
  unfold group_dates. induction rows as [| c rows IH]; simpl; [tauto |].
  rewrite insert_date_in, IH. intuition.
Qed.

Lemma sql_sum_from (values : list (option Q)) :
  forall acc,
    or_zero (fold_left (fun acc v =>
                          match v, acc with
                          | None, _ => acc
                          | Some x, None => Some x
                          | Some x, Some a => Some (a + x)
                          end) values acc)
    == or_zero acc + fold_right (fun v s => or_zero v + s) 0 values.
Proof.
  induction values as [| v values IH]; intros acc; simpl.
  - ring.
  - rewrite IH. destruct v as [x |], acc as [a |]; simpl; ring.
Qed.

Lemma sql_sum_total (column : calorie_row -> option Q)
      (rows : list calorie_row) :
  or_zero (sql_sum (map column rows)) == total column rows.
Proof.
  unfold sql_sum. rewrite sql_sum_from. simpl.
  setoid_replace (fold_right (fun v s => or_zero v + s) 0 (map column rows))
    with (total column rows); [ring |].
  unfold total. induction rows as [| c rows IH]; simpl; [reflexivity |].
  rewrite IH. reflexivity.
Qed.

Lemma combine_map_map {A B C} (f : A -> B) (g : A -> C) (l : list A) :
  combine (map f l) (map g l) = map (fun x => (f x, g x)) l.
Proof. induction l as [| x l IH]; simpl; [| rewrite IH]; reflexivity. Qed.

(** The series [view_caloric_progress] plots, read off its query. *)
Lemma caloric_chart_shape (user_id : Z) (calories : list calorie_row)
      (ins : list event) (d : database) (chart : caloric_chart) (w' : world) :
  view_caloric_progress user_id calories (start ins d) = (Ok (Some chart), w') ->
  w' = start ins d
  /\ select_daily_calorie_goal user_id d = Some (chart_goal_line chart)
  /\ chart_dates chart
     = group_dates (filter (fun c => (calories_user_id c =? user_id)%Z)
                           calories)
  /\ chart_net_calories chart
     = map (fun t =>
              or_zero (sql_sum (map calories_consumed
                                    (rows_on user_id t calories)))
              - or_zero (sql_sum (map calories_burned
                                      (rows_on user_id t calories))))
           (chart_dates chart).
Proof.
  unfold view_caloric_progress. rewrite try_raise_run. intros H.
  apply bind_ok in H. destruct H as ([] & v1 & E1 & H).
  unfold with_connection, ret, start in E1. simpl in E1.
  inversion E1; subst v1; clear E1.
  apply bind_ok in H. destruct H as (bmr_row & v2 & E2 & H).
  apply query_inv in E2. destruct E2 as [_ ->].
  apply bind_ok in H. destruct H as (bmr & v3 & E3 & H).
  destruct bmr_row; [| discriminate E3]. inversion E3; subst v3; clear E3.
  apply bind_ok in H. destruct H as (goal_row & v4 & E4 & H).
  apply query_inv in E4. destruct E4 as [E4 ->]. inversion E4 as [Hgoal].
  simpl in Hgoal. clear E4.
  apply bind_ok in H. destruct H as (goal & v5 & E5 & H).
  destruct goal_row; [| discriminate E5]. inversion E5; subst; clear E5.
  unfold caloric_query in H.
  destruct (map _ (group_dates _)) as [| e es] eqn:Edata in H.
  { apply bind_ok in H. destruct H as (line & v & _ & H). discriminate H. }
  rewrite <- Edata in H. inversion H; subst; clear H. simpl.
  split; [reflexivity |]. split; [symmetry; exact Hgoal |].
  rewrite !map_map. simpl. rewrite map_id. split; [reflexivity |].
  rewrite combine_map_map, map_map. reflexivity.
Qed.

Lemma in_combine_map {A B} (f : A -> B) (l : list A) (x : A) (y : B) :
  In (x, y) (combine l (map f l)) -> In x l /\ y = f x.
Proof.
  induction l as [| a l IH]; simpl; [contradiction |].
  intros [E | HIn].
  - inversion E; subst. auto.
  - destruct (IH HIn). auto.
Qed.

(** X25.  The series [view_caloric_progress] plots has one point per
    date on which the user has a calorie entry, in strictly ascending
    date order; the value at a date is the calories the user consumed
    minus those burned on that date, NULLs counting as 0; the reference
    line is the daily calorie goal of the user's first goal row; the
    store is unchanged. *)
Theorem view_caloric_progress_series (user_id : Z)
        (calories : list calorie_row) (ins : list event) (d : database)
        (chart : caloric_chart) (w' : world) :
  view_caloric_progress user_id calories (start ins d) = (Ok (Some chart), w') ->
  committed w' = d
  /\ StronglySorted Z.lt (chart_dates chart)
  /\ (forall t,
         In t (chart_dates chart)
         <-> exists c, In c calories /\ calories_user_id c = user_id
                       /\ calories_timestamp c = t)
  /\ List.length (chart_net_calories chart) = List.length (chart_dates chart)
  /\ (forall t v,
         In (t, v) (combine (chart_dates chart) (chart_net_calories chart)) ->
         v == net_on user_id t calories)
  /\ select_daily_calorie_goal user_id d = Some (chart_goal_line chart).
Proof.
  intros H. apply caloric_chart_shape in H.
  destruct H as (-> & Hgoal & Hdates & Hnet).
  split; [reflexivity |]. split; [rewrite Hdates; apply group_dates_sorted |].
  split.
  { intros t. rewrite Hdates, group_dates_in, in_map_iff. split.
    - intros (c & Ht & HIn). apply filter_In in HIn. destruct HIn as [HIn Hu].
      apply Z.eqb_eq in Hu. exists c. auto.
    - intros (c & HIn & Hu & Ht). exists c. split; [exact Ht |].
      apply filter_In. split; [exact HIn |]. apply Z.eqb_eq. exact Hu. }
  split; [rewrite Hnet; apply length_map |].
  split; [| exact Hgoal].
  intros t v HIn. rewrite Hnet in HIn. apply in_combine_map in HIn.
  destruct HIn as [_ ->]. unfold net_on. rewrite !sql_sum_total. reflexivity.
Qed.

(** X26.  [view_caloric_progress] raises [TypeError] for a user with
    no user row or no goal row, whatever the calorie entries, and
    changes nothing. *)
Theorem view_caloric_progress_without_goal (user_id : Z)
        (calories : list calorie_row) (ins : list event) (d : database) :
  find (fun u => (users_id u =? user_id)%Z) (users d) = None
  \/ select_daily_calorie_goal user_id d = None ->
  view_caloric_progress user_id calories (start ins d)
  = (Raise TypeError, start ins d).
Proof.
  intros H. unfold view_caloric_progress. rewrite try_raise_run.
  unfold bind, with_connection, ret, query, first_column, raise, start. simpl.
  destruct (find (fun u => (users_id u =? user_id)%Z) (users d)) as [u |];
    [| reflexivity].
  destruct H as [H | H]; [discriminate H |]. simpl. rewrite H. reflexivity.
Qed.

Lemma total_app (column : calorie_row -> option Q) (l1 l2 : list calorie_row) :
  total column (l1 ++ l2) == total column l1 + total column l2.
Proof.
  unfold total. induction l1 as [| c l1 IH]; simpl; [ring |].
  rewrite IH. ring.
Qed.

Lemma rows_on_snoc (user_id t : Z) (calories : list calorie_row)
      (c : calorie_row) :
  rows_on user_id t (calories ++ [c])
  = (rows_on user_id t calories
       ++ (if (calories_user_id c =? user_id)%Z
              && (calories_timestamp c =? t)%Z then [c] else []))%list.
Proof.
  unfold rows_on. rewrite filter_app. simpl.
  destruct (calories_user_id c =? user_id)%Z; simpl.
  - rewrite filter_app. simpl.
    destruct (calories_timestamp c =? t)%Z; reflexivity.
  - rewrite !app_nil_r. reflexivity.
Qed.

Lemma sql_sum_snoc_null (values : list (option Q)) :
  sql_sum (values ++ [None]) = sql_sum values.
Proof. unfold sql_sum. rewrite fold_left_app. reflexivity. Qed.

(** X28.  A food entry of [x > 0] calories, confirmed at the closing
    prompt, appends one row for the user and the day, with [x]
    consumed and nothing burned.  On the day itself the entries summed
    are the earlier ones followed by the new one, and the sum of the
    calories burned is as before; for every other user or day the
    entries summed, and so the net calories, are as before.  (The
    first goal row of the user, if any, must hold a daily calorie
    goal.) *)
Theorem log_food_then_net (user_id today : Z) (s enter : string) (x : Q)
        (rest : list event) (calories : list calorie_row) (d : database) :
  float_of_string s = Some x ->
  0 < x ->
  select_daily_calorie_goal user_id d <> Some None ->
  exists calories' w',
    log_food user_id today calories (start (Line s :: Line enter :: rest) d)
    = (Ok calories', w')
    /\ calories' = (calories ++ [mk_calorie user_id None (Some x) today])%list
    /\ committed w' = d
    /\ rows_on user_id today calories'
       = (rows_on user_id today calories
            ++ [mk_calorie user_id None (Some x) today])%list
    /\ sql_sum (map calories_burned (rows_on user_id today calories'))
       = sql_sum (map calories_burned (rows_on user_id today calories))
    /\ forall u t, u <> user_id \/ t <> today ->
                   rows_on u t calories' = rows_on u t calories
                   /\ net_on u t calories' = net_on u t calories.
Proof.
  intros Hs Hx Hgoal.
  exists (calories ++ [mk_calorie user_id None (Some x) today])%list.
  exists (start rest d). split; [| split; [reflexivity | split; [reflexivity |]]].
  - unfold log_food, try_except, with_connection, start.
    unfold bind at 1. unfold get_float_input, on_stdin. simpl. rewrite Hs.
    destruct (Qlt_le_dec 0 x) as [_ | Hle];
      [| exfalso; exact (Qlt_not_le _ _ Hx Hle)].
    unfold bind, query, input, commit, ret, raise. simpl.
    destruct (select_daily_calorie_goal user_id d) as [[g |] |];
      [reflexivity | exfalso; apply Hgoal; reflexivity | reflexivity].
  - assert (Hday : rows_on user_id today
                     (calories ++ [mk_calorie user_id None (Some x) today])
                   = (rows_on user_id today calories
                        ++ [mk_calorie user_id None (Some x) today])%list).
    { rewrite rows_on_snoc. simpl. rewrite !Z.eqb_refl. reflexivity. }
    split; [exact Hday |]. split.
    + rewrite Hday, map_app. simpl. apply sql_sum_snoc_null.
    + intros u t Hne.
      assert (Hrows : rows_on u t
                        (calories ++ [mk_calorie user_id None (Some x) today])
                      = rows_on u t calories).
      { rewrite rows_on_snoc. simpl.
        replace ((user_id =? u)%Z && (today =? t)%Z) with false;
          [apply app_nil_r |].
        symmetry. apply andb_false_iff.
        destruct Hne as [Hne | Hne]; [left | right]; apply Z.eqb_neq;
          congruence. }
      split; [exact Hrows |]. unfold net_on. rewrite Hrows. reflexivity.
Qed.

(** X29.  A food entry of zero or fewer calories is refused: [log_food]
    returns at once, the calories table is the one it was given and the
    store is unchanged. *)
Theorem log_food_non_positive (user_id today : Z) (s : string) (x : Q)
        (rest : list event) (calories : list calorie_row) (d : database) :
  float_of_string s = Some x ->
  x <= 0 ->
  log_food user_id today calories (start (Line s :: rest) d)
  = (Ok calories, start rest d).
Proof.
  intros Hs Hx. unfold log_food, try_except, with_connection, start.
  unfold bind at 1. unfold get_float_input, on_stdin. simpl. rewrite Hs.
  destruct (Qlt_le_dec 0 x) as [Hlt | _];
    [exfalso; exact (Qlt_not_le _ _ Hlt Hx) | reflexivity].
Qed.

(** ** Metric calculator, continued *)

(** [calculate_bmr] reads the gender through [lower] only. *)
Lemma calculate_bmr_case_insensitive (gender : string) (w h a : Q) :
  calculate_bmr gender w h a = calculate_bmr (lower gender) w h a.
Proof. unfold calculate_bmr. rewrite lower_idempotent. reflexivity. Qed.

(** X30.  A weightlifting session of [d] minutes burns [4 * d] calories
    at intensity ['1'], [6 * d] at ['2'] and [10 * d] at ['3'], and 0
    at any other intensity.  For a duration that is not negative the
    result is not negative and does not fall from intensity ['1'] to
    ['2'] to ['3']. *)
Theorem weightlifting_calories_rates (intensity : string) (d : Q) :
  calculate_calories_burned_weightlifting "1" d = 4 * d
  /\ calculate_calories_burned_weightlifting "2" d = 6 * d
  /\ calculate_calories_burned_weightlifting "3" d = 10 * d
  /\ (intensity <> "1" -> intensity <> "2" -> intensity <> "3" ->
      calculate_calories_burned_weightlifting intensity d = 0)
  /\ (0 <= d ->
      0 <= calculate_calories_burned_weightlifting intensity d
      /\ calculate_calories_burned_weightlifting "1" d
         <= calculate_calories_burned_weightlifting "2" d
      /\ calculate_calories_burned_weightlifting "2" d
         <= calculate_calories_burned_weightlifting "3" d).
Proof.
  split; [reflexivity |]. split; [reflexivity |]. split; [reflexivity |].
  unfold calculate_calories_burned_weightlifting. split.
  - intros H1 H2 H3. apply String.eqb_neq in H1, H2, H3.
    rewrite H1, H2, H3. reflexivity.
  - intros Hd. simpl. split; [| split; lra].
    destruct (intensity =? "1"); [lra |].
    destruct (intensity =? "2"); [lra |].
    destruct (intensity =? "3"); lra.
Qed.
End Tracker.

(** ** Runs with the decimal reader *)

(** C5 at the gender ['other']. *)
Lemma calculate_bmr_other_gender_ex :
  lower "other" <> "female"
  /\ lower "other" <> "male"
  /\ calculate_bmr "other" 60 165 30 = Ok None.
Proof.
  assert (Hf : lower "other" <> "female") by (simpl; discriminate).
  assert (Hm : lower "other" <> "male") by (simpl; discriminate).
  split; [exact Hf | split; [exact Hm |]].
  exact (calculate_bmr_other_gender "other" 60 165 30 Hf Hm).
Defined.

(** C8 on the store that holds the user ann. *)
Lemma register_duplicate_username_ex :
  NoDup (map users_username (users ann_registered))
  /\ In "ann" (map users_username (users ann_registered))
  /\ exists w',
      register read_decimal (start [Line "ann"; Line "pw2"] ann_registered)
      = (Ok None, w')
      /\ committed w' = ann_registered
      /\ username_count "ann" (committed w') = 1%nat.
Proof.
  assert (Hnd : NoDup (map users_username (users ann_registered))).
  { simpl. constructor; [intros [] | constructor]. }
  assert (HIn : In "ann" (map users_username (users ann_registered))).
  { simpl. left. reflexivity. }
  split; [exact Hnd | split; [exact HIn |]].
  exact (register_duplicate_username read_decimal "ann" [Line "pw2"]
                                     ann_registered Hnd HIn).
Defined.



(** C2 on the code.  For user 1 the query returns three rows: the goal
    on Squat once per logged Squat entry (not only the most recent one)
    and the goal on Bench, which belongs to user 2.  The query of the
    specification returns one row: the goal on Squat with the entry
    logged last. *)
Theorem progress_query_two_users :
  progress_query 1 two_users_store
  = [ (Some "Squat", [Some 10; None; None; None; Some 6; None; None; None]);
      (Some "Squat", [Some 10; None; None; None; Some 8; None; None; None]);
      (Some "Bench", [Some 5; None; None; None; None; None; None; None]) ]
  /\ progress_query_spec 1 two_users_store
     = [ (Some "Squat", [Some 10; None; None; None; Some 8; None; None; None]) ]
  /\ progress_query 1 two_users_store <> progress_query_spec 1 two_users_store.
Proof.
  split; [reflexivity |]. split; [reflexivity |].
  intros H. discriminate H.
Qed.

(** C3 on the code.  Setting reps=10 and then weight=50 for Squat
    leaves two goal rows; setting reps=12 afterwards writes 12 into
    both, also into the row that held only the weight target. *)
Theorem update_profile_rewrites_sibling_rows :
  let d1 := store_after (update_profile read_decimal 1)
                        (squat_goal "reps" "10") empty_database in
  let d2 := store_after (update_profile read_decimal 1)
                        (squat_goal "weight" "50") d1 in
  let d3 := store_after (update_profile read_decimal 1)
                        (squat_goal "reps" "12") d2 in
  goals d2 = [mk_goal 1 1 None (Some "Squat") (Some 10) None None None;
              mk_goal 2 1 None (Some "Squat") None (Some 50) None None]
  /\ goals d3 = [mk_goal 1 1 None (Some "Squat") (Some 12) None None None;
                 mk_goal 2 1 None (Some "Squat") (Some 12) (Some 50) None None].
Proof. vm_compute. split; reflexivity. Qed.

(** C6 on the code.  After ann (female, 60 kg, 165 cm, 30 years)
    updates her weight to 70, her user row holds the weight 70 and the
    BMR computed at registration from 60; [calculate_bmr] at 70 is a
    different number, which went to the goal row instead. *)
Theorem update_weight_leaves_stored_bmr :
  let d := store_after (update_profile read_decimal 1) weighs_70
                       ann_registered in
  users d
  = [mk_user 1 "ann" "pw" 30 "female" 70 165 "lose"
             (Some (655.1 + 9.563 * 60 + 1.850 * 165 - 4.676 * 30))]
  /\ calculate_bmr "female" 70 165 30
     = Ok (Some (655.1 + 9.563 * 70 + 1.850 * 165 - 4.676 * 30))
  /\ ~ 655.1 + 9.563 * 60 + 1.850 * 165 - 4.676 * 30
       == 655.1 + 9.563 * 70 + 1.850 * 165 - 4.676 * 30
  /\ map goals_daily_calorie_goal (goals d)
     = [Some (655.1 + 9.563 * 70 + 1.850 * 165 - 4.676 * 30)].
Proof.
  split; [vm_compute; reflexivity |].
  split; [reflexivity |].
  split; [intros H; discriminate H |].
  vm_compute. reflexivity.
Qed.

(** C9 on the code.  The first user to list the exercises gets the
    four catalog entries; a second user then gets an empty mapping,
    because the rows seeded for the first user keep the names taken. *)
Theorem get_other_exercises_second_user :
  result_of (get_other_exercises 1) [] empty_database
  = Ok [("Running", mk_intensities 8 11 14);
        ("Swimming", mk_intensities 11 14 17);
        ("Padel", mk_intensities 5 8 11);
        ("Climbing", mk_intensities 7 10 13)]
  /\ result_of (get_other_exercises 2) []
               (store_after (get_other_exercises 1) [] empty_database)
     = Ok [].
Proof. split; reflexivity. Qed.

(** ** Runs of the further methods *)

(** X1 when the dialogue stops after the username. *)
Lemma register_failure_keeps_store_ex :
  exists r w',
    register read_decimal (start [Line "bob"] ann_registered) = (r, w')
    /\ r = Raise EOFError
    /\ committed w' = ann_registered.
Proof.
  destruct (register read_decimal (start [Line "bob"] ann_registered))
    as [r w'] eqn:H.
  assert (Hr : r = Raise EOFError).
  { apply (f_equal fst) in H. simpl in H. rewrite <- H. reflexivity. }
  exists r, w'. split; [reflexivity |]. split; [exact Hr |].
  apply (register_failure_keeps_store read_decimal _ _ _ _ H).
  intros id. rewrite Hr. discriminate.
Defined.

(** X2 when bob registers after ann. *)
Lemma register_keeps_unique_usernames_ex :
  unique_usernames ann_registered
  /\ exists r w',
      register read_decimal (start bob_registers ann_registered) = (r, w')
      /\ unique_usernames (committed w').
Proof.
  assert (Hu : unique_usernames ann_registered).
  { unfold unique_usernames. simpl. constructor; [intros [] | constructor]. }
  split; [exact Hu |].
  destruct (register read_decimal (start bob_registers ann_registered))
    as [r w'] eqn:H.
  exists r, w'. split; [reflexivity |].
  exact (register_keeps_unique_usernames read_decimal _ _ _ _ Hu H).
Defined.

(** The outcome of bob's registration after ann's. *)
Lemma bob_registered :
  exists w',
    register read_decimal (start bob_registers ann_registered)
    = (Ok (Some 2%Z), w').
Proof.
  destruct (register read_decimal (start bob_registers ann_registered))
    as [r w'] eqn:H.
  assert (Hr : r = Ok (Some 2%Z)).
  { apply (f_equal fst) in H. simpl in H. rewrite <- H. vm_compute.
    reflexivity. }
  exists w'. rewrite Hr. reflexivity.
Defined.

(** X3 when bob registers after ann. *)
Lemma register_fresh_identifier_ex :
  user_ids_bounded ann_registered
  /\ exists w',
      register read_decimal (start bob_registers ann_registered)
      = (Ok (Some 2%Z), w')
      /\ (forall u, In u (users ann_registered) -> users_id u <> 2%Z)
      /\ user_ids_bounded (committed w').
Proof.
  assert (Hb : user_ids_bounded ann_registered).
  { unfold user_ids_bounded. simpl. constructor; [simpl; lia | constructor]. }
  split; [exact Hb |].
  destruct bob_registered as [w' H]. exists w'. split; [exact H |].
  exact (register_fresh_identifier read_decimal _ _ _ _ Hb H).
Defined.

(** X4 when carl types his age in letters. *)
Lemma register_non_numeric_age_ex :
  select_user_by_username "carl" ann_registered = None
  /\ read_decimal "forty" = None
  /\ exists w',
      register read_decimal
               (start [Line "carl"; Line "pw"; Line "forty"; Line "male"]
                      ann_registered)
      = (Raise ValueError, w')
      /\ committed w' = ann_registered.
Proof.
  split; [reflexivity |]. split; [reflexivity |].
  exact (register_non_numeric_age read_decimal "carl" "pw" "forty"
                                  [Line "male"] ann_registered eq_refl eq_refl).
Defined.


(** X6 when bob logs in after registering. *)
Lemma login_after_register_ex :
  exists w' row w'',
    register read_decimal (start bob_registers ann_registered)
    = (Ok (Some 2%Z), w')
    /\ login (start [Line "bob"; Line "secret"] (committed w'))
       = (Ok (Some row), w'')
    /\ users_id row = 2%Z.
Proof.
  destruct bob_registered as [w' H].
  destruct (login_after_register read_decimal "bob" "secret" _ [] _ _ _ H)
    as (row & w'' & Hl & Hid & _).
  exists w', row, w''. auto.
Defined.

(** X7 when ann logs in. *)
Lemma login_sound_ex :
  exists r w',
    login (start [Line "ann"; Line "pw"] ann_registered) = (r, w')
    /\ committed w' = ann_registered.
Proof.
  destruct (login (start [Line "ann"; Line "pw"] ann_registered))
    as [r w'] eqn:H.
  exists r, w'. split; [reflexivity |].
  exact (proj1 (login_sound _ _ _ _ H)).
Defined.

(** X10 on an empty table. *)
Lemma get_other_exercises_mapping_ex :
  unique_exercise_names empty_database
  /\ exists mapping w',
      get_other_exercises 1 (start [] empty_database) = (Ok mapping, w')
      /\ (dict_get "Padel" mapping = Some (mk_intensities 5 8 11)
          <-> exists row,
              In row (other_exercises (committed w'))
              /\ other_exercise_visible 1 row = true
              /\ other_name row = "Padel"
              /\ mk_intensities 5 8 11 = intensities_of row).
Proof.
  assert (Hu : unique_exercise_names empty_database) by constructor.
  split; [exact Hu |].
  destruct (get_other_exercises_mapping 1 [] empty_database Hu)
    as (mapping & w' & H & Hall).
  exists mapping, w'. split; [exact H | apply Hall].
Defined.

(** X11 on an empty table. *)
Lemma get_other_exercises_first_listing_ex :
  unique_exercise_names empty_database
  /\ exists mapping w',
      get_other_exercises 7 (start [] empty_database) = (Ok mapping, w')
      /\ dict_get "Climbing" mapping = Some (mk_intensities 7 10 13).
Proof.
  assert (Hu : unique_exercise_names empty_database) by constructor.
  split; [exact Hu |].
  destruct (get_other_exercises_first_listing 7 [] empty_database Hu)
    as (mapping & w' & H & Hall).
  { intros e _ []. }
  exists mapping, w'. split; [exact H |].
  apply Hall. simpl. auto 6.
Defined.


(** X13 when user 2 adds Running after user 1 listed the exercises. *)
Lemma add_custom_exercise_duplicate_name_ex :
  let d := store_after (get_other_exercises 1) [] empty_database in
  In "Running" (map other_name (other_exercises d))
  /\ exists w',
      add_custom_exercise read_decimal 2 (start running_added d)
      = (Raise IntegrityError, w')
      /\ committed w' = d.
Proof.
  intros d.
  assert (HIn : In "Running" (map other_name (other_exercises d)))
    by (simpl; auto).
  split; [exact HIn |].
  destruct (add_custom_exercise_duplicate_name read_decimal 2 "Running" "6" "9"
              "12" 6 9 12 [] d HIn eq_refl eq_refl eq_refl)
    as (w' & H & Hc & _).
  exists w'. auto.
Defined.

(** The outcome of logging the Squat set. *)
Lemma squat_logged_run :
  exists w',
    log_exercise read_decimal 1 100 (start squat_logged two_users_store)
    = (Ok tt, w').
Proof.
  destruct (log_exercise read_decimal 1 100 (start squat_logged two_users_store))
    as [r w'] eqn:H.
  assert (Hr : r = Ok tt).
  { apply (f_equal fst) in H. simpl in H. rewrite <- H. reflexivity. }
  exists w'. rewrite Hr. reflexivity.
Defined.

(** X14 when the Squat set is logged. *)
Lemma log_exercise_all_or_nothing_ex :
  exists w',
    log_exercise read_decimal 1 100 (start squat_logged two_users_store)
    = (Ok tt, w')
    /\ exists reps weight duration distance,
        committed w'
        = insert_exercise 1 "Squat" reps weight duration distance 100
                          two_users_store.
Proof.
  destruct squat_logged_run as [w' H]. exists w'. split; [exact H |].
  destruct (log_exercise_all_or_nothing read_decimal _ _ _ _ _ _ H)
    as [[_ (name & rest & reps & weight & duration & distance & Hins & Hc)]
       | [Hn _]].
  - inversion Hins; subst. exists reps, weight, duration, distance. exact Hc.
  - exfalso. exact (Hn tt eq_refl).
Defined.

(** X15 when the Squat set is logged against the Squat goal. *)
Lemma log_exercise_then_progress_ex :
  In squat_goal_row (goals two_users_store)
  /\ has_target squat_goal_row = true
  /\ goals_exercise_name squat_goal_row = Some "Squat"
  /\ exists w' e,
      log_exercise read_decimal 1 100 (start squat_logged two_users_store)
      = (Ok tt, w')
      /\ In (join_row squat_goal_row (Some e))
            (progress_query 1 (committed w'))
      /\ exercises_timestamp e = 100%Z.
Proof.
  assert (HIn : In squat_goal_row (goals two_users_store)) by (simpl; auto).
  split; [exact HIn |]. split; [reflexivity |]. split; [reflexivity |].
  destruct squat_logged_run as [w' H].
  destruct (log_exercise_then_progress read_decimal 1 100 "Squat" _ _ _
              squat_goal_row H HIn eq_refl eq_refl)
    as (e & Hq & _ & _ & Ht).
  exists w', e. auto.
Defined.

(** X16 when the one-set routine is confirmed. *)
Lemma create_routine_completed_ex :
  Forall (well_typed_exercise read_decimal) [squat_typed]
  /\ lower "end" = "end"
  /\ create_routine read_decimal 1 (start completed_entry empty_database)
     = (Ok tt,
        start [] (set_routines [mk_routine 1 "Legs" "Squat" 10 50 1 0 0]
                               empty_database)).
Proof.
  assert (H : Forall (well_typed_exercise read_decimal) [squat_typed]).
  { constructor; [| constructor].
    split; [intros E; discriminate E |].
    split; [intros E; discriminate E |].
    split; [| reflexivity].
    constructor; [| constructor].
    repeat split; intros E; discriminate E. }
  split; [exact H |]. split; [reflexivity |].
  exact (create_routine_completed read_decimal 1 "Legs" "" "end" ""
           [squat_typed] [] empty_database H eq_refl).
Defined.

(** X17 when the entry is interrupted at the closing prompt. *)
Lemma create_routine_outcomes_ex :
  exists r w',
    create_routine read_decimal 1 (start interrupted_entry empty_database)
    = (r, w')
    /\ r <> Raise KeyboardInterrupt.
Proof.
  destruct (create_routine read_decimal 1
                           (start interrupted_entry empty_database))
    as [r w'] eqn:H.
  exists r, w'. split; [reflexivity |].
  exact (proj1 (create_routine_outcomes read_decimal _ _ _ _ _ H)).
Defined.

(** The outcome of setting a goal of 10 reps on Squat. *)
Lemma squat_goal_set :
  exists w',
    update_profile read_decimal 1 (start (squat_goal "Reps" "10") empty_database)
    = (Ok tt, w').
Proof.
  destruct (update_profile read_decimal 1
                           (start (squat_goal "Reps" "10") empty_database))
    as [r w'] eqn:H.
  assert (Hr : r = Ok tt).
  { apply (f_equal fst) in H. simpl in H. rewrite <- H. reflexivity. }
  exists w'. rewrite Hr. reflexivity.
Defined.

(** X18 when a goal of 10 reps is set on Squat, after a first answer
    in letters. *)
Lemma add_exercise_goal_then_found_ex :
  attribute_of_string (lower "Reps") = Some Reps
  /\ Forall (fun l => read_decimal l = None) ["ten"]
  /\ read_decimal "10" = Some 10
  /\ exists w' g,
      update_profile read_decimal 1
        (start [Line "2"; Line "Squat"; Line "Reps"; Line "ten"; Line "10";
                Line ""] empty_database)
      = (Ok tt, w')
      /\ stdin w' = []
      /\ select_goal 1 "Squat" Reps (committed w') = Some g
      /\ target Reps g = Some 10.
Proof.
  assert (Hrej : Forall (fun l => read_decimal l = None) ["ten"])
    by (constructor; [reflexivity | constructor]).
  split; [reflexivity |]. split; [exact Hrej |]. split; [reflexivity |].
  destruct (add_exercise_goal_then_found read_decimal 1 "Squat" "Reps" "10" ""
              Reps 10 ["ten"] [] empty_database eq_refl Hrej eq_refl)
    as (w' & g & Hrun & Hin & Hs & Ht & _).
  exists w', g. auto.
Defined.

(** X19 when a goal of 10 reps is set on Squat. *)
Lemma add_exercise_goal_frame_ex :
  attribute_of_string (lower "Reps") = Some Reps
  /\ exists w',
      update_profile read_decimal 1
                     (start (squat_goal "Reps" "10") empty_database)
      = (Ok tt, w')
      /\ users (committed w') = users empty_database.
Proof.
  split; [reflexivity |].
  destruct squat_goal_set as [w' H]. exists w'. split; [exact H |].
  exact (proj1 (add_exercise_goal_frame read_decimal 1 "Squat" "Reps" Reps _ _
                  _ eq_refl H)).
Defined.

(** X20 when ann is interrupted at the prompt that closes a weight
    update. *)
Lemma update_profile_failure_keeps_store_ex :
  exists r w',
    update_profile read_decimal 1
                   (start [Line "1"; Line "70"; CtrlC] ann_registered)
    = (r, w')
    /\ r = Raise KeyboardInterrupt
    /\ committed w' = ann_registered.
Proof.
  destruct (update_profile read_decimal 1
                           (start [Line "1"; Line "70"; CtrlC] ann_registered))
    as [r w'] eqn:H.
  assert (Hr : r = Raise KeyboardInterrupt).
  { apply (f_equal fst) in H. simpl in H. rewrite <- H. reflexivity. }
  exists r, w'. split; [reflexivity |]. split; [exact Hr |].
  apply (update_profile_failure_keeps_store read_decimal _ _ _ _ _ H).
  intros a. rewrite Hr. discriminate.
Defined.


(** X22 for an identifier nobody has. *)
Lemma update_weight_unknown_user_ex :
  select_biometrics 7 ann_registered = None
  /\ read_decimal "70" = Some 70
  /\ exists w',
      update_profile read_decimal 7 (start [Line "1"; Line "70"] ann_registered)
      = (Raise UnboundLocalError, w')
      /\ committed w' = ann_registered.
Proof.
  split; [reflexivity |]. split; [reflexivity |].
  exact (update_weight_unknown_user read_decimal 7 "70" 70 [] ann_registered
                                    eq_refl eq_refl).
Defined.

(** X25 on the day with 2200 calories consumed and 500 burned: one
    point, 1700. *)
Lemma view_caloric_progress_series_ex :
  exists chart w',
    view_caloric_progress 1 one_day (start [] ann_registered)
    = (Ok (Some chart), w')
    /\ chart_dates chart = [5%Z]
    /\ (forall t v,
           In (t, v) (combine (chart_dates chart) (chart_net_calories chart)) ->
           v == net_on 1 t one_day)
    /\ net_on 1 5 one_day == 1700.
Proof.
  destruct (view_caloric_progress 1 one_day (start [] ann_registered))
    as [r w'] eqn:H.
  assert (Hr : exists chart, r = Ok (Some chart) /\ chart_dates chart = [5%Z]).
  { apply (f_equal fst) in H. simpl in H. rewrite <- H.
    eexists. split; reflexivity. }
  destruct Hr as (chart & -> & Hd).
  exists chart, w'. split; [reflexivity |]. split; [exact Hd |].
  split; [| reflexivity].
  destruct (view_caloric_progress_series 1 one_day [] ann_registered chart w' H)
    as (_ & _ & _ & _ & Hnet & _).
  exact Hnet.
Defined.

(** X26 for a user with no goal row. *)
Lemma view_caloric_progress_without_goal_ex :
  select_daily_calorie_goal 7 ann_registered = None
  /\ view_caloric_progress 7 one_day (start [] ann_registered)
     = (Raise TypeError, start [] ann_registered).
Proof.
  split; [reflexivity |].
  exact (view_caloric_progress_without_goal 7 one_day [] ann_registered
                                            (or_intror eq_refl)).
Defined.

(** X27 for Swimming at moderate intensity for 30 minutes. *)
Lemma calories_burned_catalog_exercise_ex :
  unique_exercise_names empty_database
  /\ calculate_calories_burned_other_exercises 1 "Swimming" "2" 30
                                               (start [] empty_database)
     = (Ok (14 * 30), start [] (seeded 1 empty_database)).
Proof.
  assert (Hu : unique_exercise_names empty_database) by constructor.
  split; [exact Hu |].
  apply (calories_burned_catalog_exercise 1 [] empty_database "Swimming" "2"
                                          11 14 17 30 Hu).
  - intros e _ [].
  - simpl. auto.
Defined.

(** X28 when ann logs 300 calories on day 5, after 2200 consumed and
    500 burned. *)
Lemma log_food_then_net_ex :
  read_decimal "300" = Some 300
  /\ 0 < 300
  /\ select_daily_calorie_goal 1 ann_registered <> Some None
  /\ exists calories' w',
      log_food read_decimal 1 5 one_day
               (start [Line "300"; Line ""] ann_registered)
      = (Ok calories', w')
      /\ rows_on 1 5 calories'
         = (one_day ++ [mk_calorie 1 None (Some 300) 5])%list
      /\ sql_sum (map calories_burned (rows_on 1 5 calories')) = Some 500.
Proof.
  assert (Hg : select_daily_calorie_goal 1 ann_registered <> Some None)
    by (simpl; discriminate).
  split; [reflexivity |]. split; [reflexivity |]. split; [exact Hg |].
  destruct (log_food_then_net read_decimal 1 5 "300" "" 300 [] one_day
              ann_registered eq_refl eq_refl Hg)
    as (calories' & w' & H & _ & _ & Hrows & Hburned & _).
  exists calories', w'. split; [exact H |]. split; [exact Hrows |].
  rewrite Hburned. reflexivity.
Defined.

(** X29 when ann types 0 calories. *)
Lemma log_food_non_positive_ex :
  read_decimal "0" = Some 0
  /\ 0 <= 0
  /\ log_food read_decimal 1 5 one_day (start [Line "0"] ann_registered)
     = (Ok one_day, start [] ann_registered).
Proof.
  assert (Hle : 0 <= 0) by discriminate.
  split; [reflexivity |]. split; [exact Hle |].
  exact (log_food_non_positive read_decimal 1 5 "0" 0 [] one_day ann_registered
                               eq_refl Hle).
Defined.


(** X23 when ann's new goal is typed in capitals. *)
Lemma update_fitness_goal_effect_ex :
  exists w' new_goal,
    update_profile read_decimal 1
      (start [Line "3"; Line "GAIN"; Line ""] ann_registered)
    = (Ok tt, w')
    /\ new_goal = "gain"
    /\ goals (committed w') = goals ann_registered.
Proof.
  destruct (update_fitness_goal_effect read_decimal 1 "GAIN" "" []
              ann_registered)
    as (w' & new_goal & H & Hgoal & Hgoals & _).
  exists w', new_goal. split; [exact H |].
  split; [exact (Hgoal eq_refl) | exact Hgoals].
Defined.
